(** * graph_client.py: retry policy, token cache and Graph operations

    A shallow embedding of [src/graph_client.py].  Python values that travel
    through the client (JSON payloads, the cached token, return values) are
    [PyVal]s; the client object and the outside world (the HTTP peer, the
    log of requests issued, the log of [time.sleep] calls) form an explicit
    [State]; a method is a state transformer that either returns a value or
    raises an exception. *)

From Stdlib Require Import List String ZArith QArith Bool Lia.
Import ListNotations.

Local Open Scope string_scope.
Local Open Scope list_scope.

(** ** Python values *)

(** The values [json] produces and consumes.  A [dict] keeps its insertion
    order, so it is an association list (keys pairwise distinct, as in
    Python).  A float is kept by its rational value: the client only tests
    numbers for zero. *)
#[warnings="-register-all"]
Inductive PyVal : Type :=
| PyNone
| PyBool (b : bool)
| PyInt (z : Z)
| PyFloat (q : Q)
| PyStr (s : string)
| PyList (l : list PyVal)
| PyDict (kv : list (string * PyVal)).

(** [bool(v)]: what [if v:] and [v or d] test. *)
Definition truthy (v : PyVal) : bool :=
  match v with
  | PyNone => false
  | PyBool b => b
  | PyInt z => negb (z =? 0)%Z
  | PyFloat q => negb (Qeq_bool q 0)
  | PyStr s => negb (s =? "")
  | PyList l => match l with [] => false | _ :: _ => true end
  | PyDict kv => match kv with [] => false | _ :: _ => true end
  end.

(** [a or b] *)
Definition py_or (a b : PyVal) : PyVal := if truthy a then a else b.

(** [d.get(k)] on the association list of a dict. *)
Fixpoint dict_get (k : string) (kv : list (string * PyVal)) : option PyVal :=
  match kv with
  | [] => None
  | (k', v) :: rest => if k' =? k then Some v else dict_get k rest
  end.

(** [d[k] = v]: an existing key keeps its place, a new key goes last. *)
Fixpoint dict_set (k : string) (v : PyVal) (kv : list (string * PyVal))
  : list (string * PyVal) :=
  match kv with
  | [] => [(k, v)]
  | (k', v') :: rest =>
      if k' =? k then (k', v) :: rest else (k', v') :: dict_set k v rest
  end.

(** The values the annotation [Optional[str]] admits. *)
Definition is_optional_str (v : PyVal) : bool :=
  match v with
  | PyNone | PyStr _ => true
  | _ => false
  end.

(** ** Exceptions *)

(** The exceptions the client can meet.  All but [KeyboardInterrupt] derive
    from [Exception]. *)
Inductive Exn : Type :=
| HTTPError (status : Z) (body : string)
| RequestException (msg : string)
| JSONDecodeError
| KeyError (key : string)
| TypeError (msg : string)
| KeyboardInterrupt.

(** [isinstance(e, Exception)] *)
Definition is_Exception (e : Exn) : bool :=
  match e with
  | KeyboardInterrupt => false
  | _ => true
  end.

(** ** Configuration and client objects *)

Record GraphConfig : Type := mkGraphConfig {
  tenant_id : string;
  client_id : string;
  client_secret : string;
  scheduler_mailbox : string;
  base_url : string
}.

(** [GraphConfig.__init__], with its default [base_url]. *)
Definition GraphConfig_init (tenant client secret mailbox : string)
           (base : option string) : GraphConfig :=
  mkGraphConfig tenant client secret mailbox
    (match base with
     | Some b => b
     | None => "https://graph.microsoft.com/v1.0"
     end).

Record GraphClient : Type := mkGraphClient {
  cfg : GraphConfig;
  _token : PyVal
}.

(** [GraphClient.__init__] *)
Definition GraphClient_init (c : GraphConfig) : GraphClient :=
  mkGraphClient c PyNone.

(** ** HTTP requests and replies *)

(** A header value: a literal, or the f-string ["Bearer {token}"] kept as
    its interpolated value. *)
Inductive HeaderVal : Type :=
| Lit (s : string)
| Bearer (token : PyVal).

(** The arguments of one call into [requests]. *)
Record Request : Type := mkRequest {
  method : string;
  url : string;
  headers : option (list (string * HeaderVal));
  params : option (list (string * string));
  data : option (list (string * string));
  json : PyVal;
  timeout : Z
}.

(** A [requests.Response]: status, raw content, and what [r.json()] gives
    ([None] when decoding fails). *)
Record Response : Type := mkResponse {
  status_code : Z;
  content : string;
  decoded : option PyVal
}.

(** What the peer does with a request: no response at all (the transport
    raises), or a response. *)
Inductive Reply : Type :=
| Failed (e : Exn)
| Answered (r : Response).

(** ** State *)

(** The client object together with the world around it.  [network] answers
    a request from the history of all requests issued so far, the current one
    last; [sent] is that history; [slept] lists the arguments of the
    [time.sleep] calls, oldest first. *)
Record State : Type := mkState {
  self : GraphClient;
  network : list Request -> Reply;
  sent : list Request;
  slept : list Q
}.

Definition with_self (c : GraphClient) (s : State) : State :=
  mkState c (network s) (sent s) (slept s).

Definition with_sent (l : list Request) (s : State) : State :=
  mkState (self s) (network s) l (slept s).

Definition with_slept (l : list Q) (s : State) : State :=
  mkState (self s) (network s) (sent s) l.

(** ** Computations that may raise *)

Inductive Outcome (A : Type) : Type :=
| Return (a : A)
| Raise (e : Exn).

Arguments Return {A} a.
Arguments Raise {A} e.

Definition M (A : Type) : Type := State -> Outcome A * State.

Definition ret {A} (a : A) : M A := fun s => (Return a, s).

Definition raise {A} (e : Exn) : M A := fun s => (Raise e, s).

Definition bind {A B} (m : M A) (k : A -> M B) : M B :=
  fun s =>
    match m s with
    | (Return a, s') => k a s'
    | (Raise e, s') => (Raise e, s')
    end.

Notation "x <- m ;; k" := (bind m (fun x => k))
  (at level 61, m at next level, right associativity).
Notation "m ;;; k" := (bind m (fun _ => k))
  (at level 61, right associativity).

Definition get_self : M GraphClient := fun s => (Return (self s), s).

Definition set_token (t : PyVal) : M unit :=
  fun s => (Return tt, with_self (mkGraphClient (cfg (self s)) t) s).

(** [time.sleep(d)] *)
Definition sleep (d : Q) : M unit :=
  fun s => (Return tt, with_slept (slept s ++ [d]) s).

(** One call into [requests]: the request goes out and the peer replies. *)
Definition requests_request (req : Request) : M Response :=
  fun s =>
    let s' := with_sent (sent s ++ [req]) s in
    match network s (sent s') with
    | Failed e => (Raise e, s')
    | Answered r => (Return r, s')
    end.

(** The statuses [raise_for_status] refuses: 4xx and 5xx. *)
Definition is_error_status (r : Response) : bool :=
  ((400 <=? status_code r) && (status_code r <? 600))%Z.

(** [r.raise_for_status()] *)
Definition raise_for_status (r : Response) : M unit :=
  if is_error_status r
  then raise (HTTPError (status_code r) (content r))
  else ret tt.

(** [r.json()] *)
Definition Response_json (r : Response) : M PyVal :=
  match decoded r with
  | Some v => ret v
  | None => raise JSONDecodeError
  end.

(** [v[key]] for a string key. *)
Definition subscript (v : PyVal) (key : string) : M PyVal :=
  match v with
  | PyDict kv =>
      match dict_get key kv with
      | Some x => ret x
      | None => raise (KeyError key)
      end
  | PyNone => raise (TypeError "'NoneType' object is not subscriptable")
  | PyList _ => raise (TypeError "list indices must be integers or slices, not str")
  | PyStr _ => raise (TypeError "string indices must be integers, not 'str'")
  | _ => raise (TypeError "object is not subscriptable")
  end.

(** ** with_retry *)

(** [range(n)] *)
Definition range (n : Z) : list Z :=
  map Z.of_nat (seq 0 (Z.to_nat n)).

(** [base_delay_s * (2 ** attempt)] *)
Definition backoff (base_delay_s : Q) (attempt : Z) : Q :=
  base_delay_s * inject_Z (2 ^ attempt).

(** [raise last_exc]: raising [None] is itself a [TypeError]. *)
Definition raise_last {A} (last_exc : option Exn) : M A :=
  match last_exc with
  | Some e => raise e
  | None => raise (TypeError "exceptions must derive from BaseException")
  end.

(** The [for] loop of [wrapper] over the attempts still to make. *)
Fixpoint retry_loop {A} (base_delay_s : Q) (fn : M A) (attempts : list Z)
         (last_exc : option Exn) : M A :=
  match attempts with
  | [] => raise_last last_exc
  | attempt :: rest =>
      fun s =>
        match fn s with
        | (Return v, s') => (Return v, s')
        | (Raise e, s') =>
            if is_Exception e
            then (sleep (backoff base_delay_s attempt) ;;;
                  retry_loop base_delay_s fn rest (Some e)) s'
            else (Raise e, s')
        end
  end.

Definition with_retry {A} (max_attempts : Z) (base_delay_s : Q) (fn : M A)
  : M A :=
  retry_loop base_delay_s fn (range max_attempts) None.

(** ** GraphClient *)

Definition token_url (c : GraphConfig) : string :=
  "https://login.microsoftonline.com/" ++ tenant_id c ++ "/oauth2/v2.0/token".

(** The form posted to the identity endpoint. *)
Definition token_form (c : GraphConfig) : list (string * string) :=
  [("client_id", client_id c);
   ("client_secret", client_secret c);
   ("grant_type", "client_credentials");
   ("scope", "https://graph.microsoft.com/.default")].

(** [requests.post(url, data=data, timeout=15)] *)
Definition token_request (c : GraphConfig) : Request :=
  mkRequest "POST" (token_url c) None None (Some (token_form c)) PyNone 15.

Definition _get_token : M PyVal :=
  me <- get_self ;;
  if truthy (_token me) then ret (_token me)
  else
    r <- requests_request (token_request (cfg me)) ;;
    raise_for_status r ;;;
    j <- Response_json r ;;
    t <- subscript j "access_token" ;;
    set_token t ;;;
    me' <- get_self ;;
    ret (_token me').

(** The dict [_headers] returns for the token [tok]. *)
Definition bearer_headers (tok : PyVal) : list (string * HeaderVal) :=
  [("Authorization", Bearer tok);
   ("Content-Type", Lit "application/json")].

Definition _headers : M (list (string * HeaderVal)) :=
  tok <- _get_token ;;
  ret (bearer_headers tok).

(** [requests.request(method, url, headers=..., params=..., json=...,
    timeout=20)] as [_request] builds it. *)
Definition api_request (meth u : string) (h : list (string * HeaderVal))
           (ps : option (list (string * string))) (json_body : PyVal)
  : Request :=
  mkRequest meth u (Some h) ps None json_body 20.

Definition _request (meth u : string) (ps : option (list (string * string)))
           (json_body : PyVal) : M (Z * PyVal) :=
  h <- _headers ;;
  r <- requests_request (api_request meth u h ps json_body) ;;
  raise_for_status r ;;;
  body <- (if content r =? "" then ret PyNone else Response_json r) ;;
  ret (status_code r, body).

Definition events_url (c : GraphConfig) : string :=
  base_url c ++ "/users/" ++ scheduler_mailbox c ++ "/events".

Definition event_url (c : GraphConfig) (event_id : string) : string :=
  base_url c ++ "/users/" ++ scheduler_mailbox c ++ "/events/" ++ event_id.

Definition sendMail_url (c : GraphConfig) : string :=
  base_url c ++ "/users/" ++ scheduler_mailbox c ++ "/sendMail".

(** The default of the [send_updates] argument. *)
Definition send_updates_default : string := "all".

(** The body of [create_event], before decoration. *)
Definition create_event_fn (event_payload : PyVal) (send_updates : string)
  : M PyVal :=
  me <- get_self ;;
  p <- _request "POST" (events_url (cfg me))
         (Some [("sendUpdates", send_updates)]) event_payload ;;
  ret (py_or (snd p) (PyDict [])).

(** The body of [patch_event], before decoration. *)
Definition patch_event_fn (event_id : string) (patch_payload : PyVal)
           (send_updates : string) : M PyVal :=
  me <- get_self ;;
  _request "PATCH" (event_url (cfg me) event_id)
    (Some [("sendUpdates", send_updates)]) patch_payload ;;;
  ret PyNone.

(** One entry of [toRecipients]. *)
Definition recipient (addr : PyVal) : PyVal :=
  PyDict [("emailAddress", PyDict [("address", addr)])].

(** The [message] dict of [send_mail], after the optional assignment of
    its [attachments] key. *)
Definition mail_message (to : list PyVal) (subject body attachments : PyVal)
  : list (string * PyVal) :=
  let message :=
    [("subject", subject);
     ("body", PyDict [("contentType", PyStr "HTML"); ("content", body)]);
     ("toRecipients", PyList (map recipient to))] in
  if truthy attachments
  then dict_set "attachments" attachments message
  else message.

Definition mail_payload (to : list PyVal) (subject body attachments : PyVal)
  : PyVal :=
  PyDict [("message", PyDict (mail_message to subject body attachments));
          ("saveToSentItems", PyBool true)].

(** The body of [send_mail], before decoration. *)
Definition send_mail_fn (to : list PyVal) (subject body attachments : PyVal)
  : M PyVal :=
  me <- get_self ;;
  _request "POST" (sendMail_url (cfg me)) None
    (mail_payload to subject body attachments) ;;;
  ret PyNone.

(** [@with_retry(max_attempts=3, base_delay_s=1.0)] *)
Definition decorated {A} (fn : M A) : M A := with_retry 3 1 fn.

Definition create_event (event_payload : PyVal) (send_updates : string)
  : M PyVal :=
  decorated (create_event_fn event_payload send_updates).

Definition patch_event (event_id : string) (patch_payload : PyVal)
           (send_updates : string) : M PyVal :=
  decorated (patch_event_fn event_id patch_payload send_updates).

Definition send_mail (to : list PyVal) (subject body attachments : PyVal)
  : M PyVal :=
  decorated (send_mail_fn to subject body attachments).

(** ** The public operations as data *)

(** A call of one of the three decorated methods with its arguments. *)
Inductive Operation : Type :=
| CreateEvent (event_payload : PyVal) (send_updates : string)
| PatchEvent (event_id : string) (patch_payload : PyVal)
             (send_updates : string)
| SendMail (to : list PyVal) (subject body attachments : PyVal).

(** One attempt: the undecorated method. *)
Definition attempt_of (op : Operation) : M PyVal :=
  match op with
  | CreateEvent p su => create_event_fn p su
  | PatchEvent i p su => patch_event_fn i p su
  | SendMail to subj b att => send_mail_fn to subj b att
  end.

(** The call as the caller makes it: the decorated method. *)
Definition call (op : Operation) : M PyVal :=
  match op with
  | CreateEvent p su => create_event p su
  | PatchEvent i p su => patch_event i p su
  | SendMail to subj b att => send_mail to subj b att
  end.

(** A caller running calls one after the other, whatever each one gives. *)
Fixpoint run_calls (ops : list Operation) (s : State) : State :=
  match ops with
  | [] => s
  | op :: rest => run_calls rest (snd (call op s))
  end.

(** ** Observations used in the statements *)

(** The Graph request one attempt of [op] builds, for a client configured
    by [c] that holds the token [tok]. *)
Definition request_of (c : GraphConfig) (tok : PyVal) (op : Operation)
  : Request :=
  match op with
  | CreateEvent p su =>
      api_request "POST" (events_url c) (bearer_headers tok)
        (Some [("sendUpdates", su)]) p
  | PatchEvent i p su =>
      api_request "PATCH" (event_url c i) (bearer_headers tok)
        (Some [("sendUpdates", su)]) p
  | SendMail to subj b att =>
      api_request "POST" (sendMail_url c) (bearer_headers tok) None
        (mail_payload to subj b att)
  end.

(** What an attempt of [op] returns when [_request] gave the body [b]. *)
Definition result_of (op : Operation) (b : PyVal) : PyVal :=
  match op with
  | CreateEvent _ _ => py_or b (PyDict [])
  | _ => PyNone
  end.

(** Total of the [time.sleep] arguments. *)
Definition total_slept (l : list Q) : Q := fold_right Qplus 0 l.

(** The requests [_get_token] issues: form-encoded posts to the identity
    endpoint of the client's tenant. *)
Definition is_token_request (c : GraphConfig) (r : Request) : bool :=
  (url r =? token_url c) &&
  match data r with Some _ => true | None => false end.

Definition token_requests (c : GraphConfig) (l : list Request) : nat :=
  List.length (filter (is_token_request c) l).

(** "The wrapped call raises on each of its first attempts": starting in
    [s], [fn] raises the exceptions [es] one after the other, each an
    [Exception], and is then in state [s'].  The states are those of [fn]
    itself, without the pauses a caller may put in between. *)
Inductive fails {A} (fn : M A) : State -> list Exn -> State -> Prop :=
| fails_nil : forall s, fails fn s [] s
| fails_cons : forall s e s1 es s2,
    fn s = (Raise e, s1) ->
    is_Exception e = true ->
    fails fn s1 es s2 ->
    fails fn s (e :: es) s2.

(** Calls in which no failure occurs: every call returns from its first
    attempt. *)
Inductive no_failure : list Operation -> State -> State -> Prop :=
| no_failure_nil : forall s, no_failure [] s s
| no_failure_cons : forall op ops s v s1 s2,
    attempt_of op s = (Return v, s1) ->
    no_failure ops s1 s2 ->
    no_failure (op :: ops) s s2.

(** [sum(base_delay * 2^k for k in 0..N-2)], the pause the specification
    gives for a success on attempt [N]. *)
Definition spec_total_sleep (base_delay : Q) (N : nat) : Q :=
  fold_right (fun k acc => base_delay * inject_Z (2 ^ Z.of_nat k) + acc) 0
             (seq 0 (N - 1)).

(** A computation that neither reads nor writes the sleep log. *)
Definition sleep_blind {A} (m : M A) : Prop :=
  forall l s, m (with_slept l s) = (fst (m s), with_slept l (snd (m s))).

(** A computation that leaves the configuration of the client alone. *)
Definition keeps_cfg {A} (m : M A) : Prop :=
  forall s, cfg (self (snd (m s))) = cfg (self s).

(** The exception [raise last_exc] finds after the failures [es]. *)
Definition last_exc_after (es : list Exn) (last_exc : option Exn)
  : option Exn :=
  match rev es with
  | e :: _ => Some e
  | [] => last_exc
  end.


(** ** Concrete scenarios *)

Definition ex_cfg : GraphConfig :=
  GraphConfig_init "contoso" "app-1" "s3cret" "scheduler@contoso.com" None.

Definition ex_event : PyVal :=
  PyDict [("subject", PyStr "Interview")].

Definition ex_created : PyVal :=
  PyDict [("id", PyStr "AAMk")].

Definition ex_token_reply (t : PyVal) : Reply :=
  Answered (mkResponse 200 "{...}" (Some (PyDict [("access_token", t)]))).

(** A fresh client facing the peer [net]. *)
Definition ex_fresh (net : list Request -> Reply) : State :=
  mkState (GraphClient_init ex_cfg) net [] [].

(** The token is granted; the Graph call is refused with 503, then with
    500, and accepted on the third attempt. *)
Definition ex_net_third_time (h : list Request) : Reply :=
  match List.length h with
  | 1%nat => ex_token_reply (PyStr "tok")
  | 2%nat => Answered (mkResponse 503 "busy" None)
  | 3%nat => Answered (mkResponse 500 "oops" None)
  | _ => Answered (mkResponse 201 "{...}" (Some ex_created))
  end.

(** The token is granted; every Graph call is refused, with a different
    status each time. *)
Definition ex_net_never (h : list Request) : Reply :=
  match List.length h with
  | 1%nat => ex_token_reply (PyStr "tok")
  | 2%nat => Answered (mkResponse 503 "busy" None)
  | 3%nat => Answered (mkResponse 500 "oops" None)
  | _ => Answered (mkResponse 429 "slow down" None)
  end.

Definition ex_op : Operation := CreateEvent ex_event send_updates_default.

(** The state in which the [n]-th attempt of [op] leaves a run that began
    in [s], pauses left out. *)
Fixpoint ex_after (op : Operation) (n : nat) (s : State) : State :=
  match n with
  | O => s
  | S n' => ex_after op n' (snd (attempt_of op s))
  end.

(** The identity endpoint grants an empty token every time it is asked;
    Graph accepts every call. *)
Definition ex_net_empty_token (h : list Request) : Reply :=
  match h with
  | [] => Failed (RequestException "no request")
  | _ :: _ =>
      if is_token_request ex_cfg (last h (token_request ex_cfg))
      then ex_token_reply (PyStr "")
      else Answered (mkResponse 201 "{...}" (Some ex_created))
  end.

(** The token is granted once; Graph accepts every call. *)
Definition ex_net_ok (h : list Request) : Reply :=
  match List.length h with
  | 1%nat => ex_token_reply (PyStr "tok")
  | _ => Answered (mkResponse 201 "{...}" (Some ex_created))
  end.

(** The token is granted; Graph answers 200 with the JSON text [[]]. *)
Definition ex_net_empty_list (h : list Request) : Reply :=
  match List.length h with
  | 1%nat => ex_token_reply (PyStr "tok")
  | _ => Answered (mkResponse 200 "[]" (Some (PyList [])))
  end.

(** The identity endpoint refuses the credentials. *)
Definition ex_net_denied (h : list Request) : Reply :=
  Answered (mkResponse 401 "invalid_client" None).

Definition ex_mail : Operation :=
  SendMail [PyStr "a@x.com"; PyStr "b@x.com"] (PyStr "Subj")
           (PyStr "<p>Hi</p>") PyNone.

Definition ex_patch : Operation :=
  PatchEvent "AAMk" (PyDict [("subject", PyStr "Moved")]) send_updates_default.

(** A client that already holds the token ["tok"], facing the peer [net]. *)
Definition ex_cached (net : list Request -> Reply) : State :=
  mkState (mkGraphClient ex_cfg (PyStr "tok")) net [] [].

(** Graph accepts every call with 202 and a body that is not JSON. *)
Definition ex_net_garbled (h : list Request) : Reply :=
  Answered (mkResponse 202 "<html>" None).

(** The transport is interrupted from the keyboard. *)
Definition ex_net_interrupt (h : list Request) : Reply :=
  Failed KeyboardInterrupt.

(** Every answer is 200 with the JSON array [[1]]. *)
Definition ex_net_array (h : list Request) : Reply :=
  Answered (mkResponse 200 "[1]" (Some (PyList [PyInt 1]))).

(** The identity endpoint grants [null] as token; Graph then answers 304
    without content. *)
Definition ex_net_null_token (h : list Request) : Reply :=
  match List.length h with
  | 1%nat => ex_token_reply PyNone
  | _ => Answered (mkResponse 304 "" None)
  end.

(** * Proofs *)

Arguments token_url : simpl never.
Arguments events_url : simpl never.
Arguments event_url : simpl never.
Arguments sendMail_url : simpl never.
Arguments token_form : simpl never.
Arguments backoff : simpl never.

Lemma with_slept_id : forall s, with_slept (slept s) s = s.
Proof. now intros []. Qed.

Lemma with_slept_twice : forall l l' s,
    with_slept l' (with_slept l s) = with_slept l' s.
Proof. reflexivity. Qed.

(** ** Frame lemmas, by the structure of the computation *)

Section Frames.
Context {A B : Type}.

Lemma sleep_blind_ret (a : A) : sleep_blind (ret a).
Proof. now intros l s. Qed.

Lemma sleep_blind_raise (e : Exn) : sleep_blind (@raise A e).
Proof. now intros l s. Qed.

Lemma sleep_blind_bind (m : M A) (k : A -> M B) :
  sleep_blind m -> (forall a, sleep_blind (k a)) -> sleep_blind (bind m k).
Proof.
  intros Hm Hk l s. unfold bind. rewrite Hm.
  destruct (m s) as [[a | e] s']; cbn [fst snd]; [apply Hk | reflexivity].
Qed.

Lemma sleep_blind_if (b : bool) (m1 m2 : M A) :
  sleep_blind m1 -> sleep_blind m2 -> sleep_blind (if b then m1 else m2).
Proof. now destruct b. Qed.

Lemma keeps_cfg_ret (a : A) : keeps_cfg (ret a).
Proof. now intros s. Qed.

Lemma keeps_cfg_raise (e : Exn) : keeps_cfg (@raise A e).
Proof. now intros s. Qed.

Lemma keeps_cfg_bind (m : M A) (k : A -> M B) :
  keeps_cfg m -> (forall a, keeps_cfg (k a)) -> keeps_cfg (bind m k).
Proof.
  intros Hm Hk s. unfold bind. specialize (Hm s).
  destruct (m s) as [[a | e] s']; cbn [fst snd] in *;
    [rewrite Hk | ]; exact Hm.
Qed.

Lemma keeps_cfg_if (b : bool) (m1 m2 : M A) :
  keeps_cfg m1 -> keeps_cfg m2 -> keeps_cfg (if b then m1 else m2).
Proof. now destruct b. Qed.
End Frames.

Lemma sleep_blind_get_self : sleep_blind get_self.
Proof. now intros l s. Qed.

Lemma sleep_blind_set_token t : sleep_blind (set_token t).
Proof. now intros l s. Qed.

Lemma sleep_blind_requests_request req : sleep_blind (requests_request req).
Proof.
  intros l s. unfold requests_request. cbn.
  now destruct (network s (sent s ++ [req])).
Qed.

Lemma sleep_blind_raise_for_status r : sleep_blind (raise_for_status r).
Proof.
  unfold raise_for_status.
  apply sleep_blind_if; [apply sleep_blind_raise | apply sleep_blind_ret].
Qed.

Lemma sleep_blind_Response_json r : sleep_blind (Response_json r).
Proof.
  unfold Response_json.
  destruct (decoded r); [apply sleep_blind_ret | apply sleep_blind_raise].
Qed.

Lemma sleep_blind_subscript v k : sleep_blind (subscript v k).
Proof.
  unfold subscript. destruct v; try apply sleep_blind_raise.
  destruct (dict_get k kv); [apply sleep_blind_ret | apply sleep_blind_raise].
Qed.

Lemma keeps_cfg_get_self : keeps_cfg get_self.
Proof. now intros s. Qed.

Lemma keeps_cfg_set_token t : keeps_cfg (set_token t).
Proof. now intros s. Qed.

Lemma keeps_cfg_sleep d : keeps_cfg (sleep d).
Proof. now intros s. Qed.

Lemma keeps_cfg_requests_request req : keeps_cfg (requests_request req).
Proof.
  intros s. unfold requests_request. cbn.
  now destruct (network s (sent s ++ [req])).
Qed.

Lemma keeps_cfg_raise_for_status r : keeps_cfg (raise_for_status r).
Proof.
  unfold raise_for_status.
  apply keeps_cfg_if; [apply keeps_cfg_raise | apply keeps_cfg_ret].
Qed.

Lemma keeps_cfg_Response_json r : keeps_cfg (Response_json r).
Proof.
  unfold Response_json.
  destruct (decoded r); [apply keeps_cfg_ret | apply keeps_cfg_raise].
Qed.

Lemma keeps_cfg_subscript v k : keeps_cfg (subscript v k).
Proof.
  unfold subscript. destruct v; try apply keeps_cfg_raise.
  destruct (dict_get k kv); [apply keeps_cfg_ret | apply keeps_cfg_raise].
Qed.

Create HintDb frames.

#[local] Hint Resolve
  sleep_blind_ret sleep_blind_raise sleep_blind_get_self
  sleep_blind_set_token sleep_blind_requests_request
  sleep_blind_raise_for_status sleep_blind_Response_json
  sleep_blind_subscript
  keeps_cfg_ret keeps_cfg_raise keeps_cfg_get_self keeps_cfg_set_token
  keeps_cfg_sleep keeps_cfg_requests_request keeps_cfg_raise_for_status
  keeps_cfg_Response_json keeps_cfg_subscript : frames.

(** Walks a computation built from [bind] and [if], closing the leaves
    with the [frames] hints. *)
Ltac frame :=
  repeat first
    [ apply sleep_blind_bind; [ | intros ? ]
    | apply keeps_cfg_bind; [ | intros ? ]
    | apply sleep_blind_if
    | apply keeps_cfg_if
    | solve [ auto with frames ] ].

Lemma sleep_blind__get_token : sleep_blind _get_token.
Proof. unfold _get_token. frame. Qed.

Lemma keeps_cfg__get_token : keeps_cfg _get_token.
Proof. unfold _get_token. frame. Qed.

#[local] Hint Resolve sleep_blind__get_token keeps_cfg__get_token : frames.

Lemma sleep_blind__headers : sleep_blind _headers.
Proof. unfold _headers. frame. Qed.

Lemma keeps_cfg__headers : keeps_cfg _headers.
Proof. unfold _headers. frame. Qed.

#[local] Hint Resolve sleep_blind__headers keeps_cfg__headers : frames.

Lemma sleep_blind__request meth u ps j : sleep_blind (_request meth u ps j).
Proof. unfold _request. frame. Qed.

Lemma keeps_cfg__request meth u ps j : keeps_cfg (_request meth u ps j).
Proof. unfold _request. frame. Qed.

#[local] Hint Resolve sleep_blind__request keeps_cfg__request : frames.

Lemma sleep_blind_attempt_of op : sleep_blind (attempt_of op).
Proof.
  destruct op; cbn [attempt_of];
    unfold create_event_fn, patch_event_fn, send_mail_fn; frame.
Qed.

Lemma keeps_cfg_attempt_of op : keeps_cfg (attempt_of op).
Proof.
  destruct op; cbn [attempt_of];
    unfold create_event_fn, patch_event_fn, send_mail_fn; frame.
Qed.

(** ** The retry loop *)

Lemma total_slept_app : forall l l',
    total_slept (l ++ l') == total_slept l + total_slept l'.
Proof.
  induction l as [| d l IH]; intros l'; cbn.
  - now rewrite Qplus_0_l.
  - rewrite IH. now rewrite Qplus_assoc.
Qed.

Lemma fails_slept : forall A (fn : M A) s es s',
    sleep_blind fn -> fails fn s es s' -> slept s' = slept s.
Proof.
  intros A fn s es s' Hb H. induction H as [| s e s1 es s2 Hfn _ _ IH].
  - reflexivity.
  - rewrite IH. specialize (Hb (slept s) s).
    rewrite with_slept_id, Hfn in Hb. cbn in Hb.
    injection Hb as Hb. now rewrite Hb.
Qed.

Lemma last_exc_after_cons : forall e es last_exc,
    last_exc_after (e :: es) last_exc = last_exc_after es (Some e).
Proof.
  intros e es last_exc. unfold last_exc_after. cbn.
  destruct (rev es); reflexivity.
Qed.

Section Retry.
Context {A : Type}.
Variable base_delay_s : Q.
Variable fn : M A.
Hypothesis fn_blind : sleep_blind fn.

(** After as many failures as there are attempts in [ks], the loop has
    slept once per failure and goes on with the attempts that remain. *)
Lemma retry_loop_fails : forall s es s1,
    fails fn s es s1 ->
    forall ks rest last_exc l,
      List.length ks = List.length es ->
      retry_loop base_delay_s fn (ks ++ rest) last_exc (with_slept l s)
      = retry_loop base_delay_s fn rest (last_exc_after es last_exc)
          (with_slept (l ++ map (backoff base_delay_s) ks) s1).
Proof.
  induction 1 as [s | s e s1 es s2 Hfn He _ IH];
    intros ks rest last_exc l Hlen.
  - destruct ks; [ | discriminate ]. cbn. now rewrite app_nil_r.
  - destruct ks as [| k ks]; [ discriminate | ].
    cbn [app retry_loop]. rewrite fn_blind, Hfn. cbn [fst snd].
    rewrite He. unfold bind, sleep. cbn [slept with_slept].
    rewrite with_slept_twice.
    rewrite IH by (cbn in Hlen; lia).
    rewrite last_exc_after_cons. cbn [map].
    now rewrite <- app_assoc.
Qed.

(** A return of the loop is the return of one of its attempts. *)
Lemma retry_loop_returns (P : A -> Prop) :
  (forall s v s', fn s = (Return v, s') -> P v) ->
  forall ks last_exc s v s',
    retry_loop base_delay_s fn ks last_exc s = (Return v, s') -> P v.
Proof.
  intros HP. induction ks as [| k ks IH]; intros last_exc s v s' H.
  - destruct last_exc; discriminate.
  - cbn [retry_loop] in H. destruct (fn s) as [[a | e] s1] eqn:Hfn.
    + injection H as <- _. eauto.
    + destruct (is_Exception e); [ | discriminate ].
      unfold bind, sleep in H. eauto.
Qed.

(** The loop leaves alone whatever each attempt and each pause leave
    alone. *)
Lemma retry_loop_keeps_cfg :
  keeps_cfg fn ->
  forall ks last_exc, keeps_cfg (retry_loop base_delay_s fn ks last_exc).
Proof.
  intros Hfn. induction ks as [| k ks IH]; intros last_exc s.
  - now destruct last_exc.
  - cbn [retry_loop]. specialize (Hfn s).
    destruct (fn s) as [[a | e] s1]; cbn [fst snd] in *; [ exact Hfn | ].
    destruct (is_Exception e); [ | exact Hfn ].
    unfold bind, sleep. rewrite IH. exact Hfn.
Qed.
End Retry.

Lemma range_3 : range 3 = [0; 1; 2]%Z.
Proof. reflexivity. Qed.

(** Success on attempt [N] of the three the decorator allows. *)
Lemma decorated_succeeds_after : forall A (fn : M A) s es s1 v s',
    sleep_blind fn ->
    fails fn s es s1 ->
    (List.length es < 3)%nat ->
    fn s1 = (Return v, s') ->
    decorated fn s
    = (Return v,
       with_slept
         (slept s ++ map (backoff 1) (map Z.of_nat (seq 0 (List.length es))))
         s').
Proof.
  intros A fn s es s1 v s' Hb Hf Hlen Hok.
  unfold decorated, with_retry. rewrite range_3.
  rewrite <- (with_slept_id s) at 1.
  pose (ks := map Z.of_nat (seq 0 (List.length es))).
  assert (Hks : exists k rest, [0; 1; 2]%Z = ks ++ k :: rest).
  { subst ks. destruct es as [| e1 [| e2 [| e3 es]]]; cbn in *;
      [ exists 0%Z, [1; 2]%Z | exists 1%Z, [2]%Z | exists 2%Z, [] | lia ];
      reflexivity. }
  destruct Hks as (k & rest & ->).
  rewrite (retry_loop_fails 1 fn Hb s es s1 Hf)
    by (subst ks; now rewrite length_map, length_seq).
  cbn [retry_loop]. rewrite Hb, Hok. reflexivity.
Qed.

(** All three attempts fail: three pauses, then the last exception. *)
Lemma decorated_exhausted : forall A (fn : M A) s e1 e2 e3 s3,
    sleep_blind fn ->
    fails fn s [e1; e2; e3] s3 ->
    decorated fn s
    = (Raise e3,
       with_slept (slept s ++ map (backoff 1) [0; 1; 2]%Z) s3).
Proof.
  intros A fn s e1 e2 e3 s3 Hb Hf.
  unfold decorated, with_retry. rewrite range_3.
  rewrite <- (with_slept_id s) at 1.
  rewrite <- (app_nil_r [0; 1; 2]%Z) at 1.
  rewrite (retry_loop_fails 1 fn Hb s _ s3 Hf) by reflexivity.
  reflexivity.
Qed.

Lemma decorated_first_try : forall A (fn : M A) s v s',
    fn s = (Return v, s') -> decorated fn s = (Return v, s').
Proof.
  intros A fn s v s' H. unfold decorated, with_retry. rewrite range_3.
  cbn [retry_loop]. now rewrite H.
Qed.

Lemma call_decorated : forall op, call op = decorated (attempt_of op).
Proof. now intros []. Qed.

Lemma spec_total_sleep_is_sum : forall N,
    total_slept (map (backoff 1) (map Z.of_nat (seq 0 (N - 1))))
    == spec_total_sleep 1 N.
Proof.
  intros N. unfold spec_total_sleep, total_slept.
  induction (seq 0 (N - 1)) as [| k l IH]; cbn; [ reflexivity | ].
  now rewrite IH.
Qed.

(** ** The retry policy: claims C1, C2, C3 *)

(** C1.  For each of the three decorated operations and each [N] in
    {1,2,3}: when the operation raises on its first [N-1] attempts and
    returns [v] on attempt [N], the decorated call returns [v], it leaves
    the client and the request log as attempt [N] left them, and the time it
    slept in total is [sum(1.0 * 2^k for k in 0..N-2)]. *)
Theorem with_retry_returns_success_of_attempt_N :
  forall op N s es sN v s',
    (1 <= N <= 3)%nat ->
    List.length es = (N - 1)%nat ->
    fails (attempt_of op) s es sN ->
    attempt_of op sN = (Return v, s') ->
    fst (call op s) = Return v /\
    self (snd (call op s)) = self s' /\
    sent (snd (call op s)) = sent s' /\
    total_slept (slept (snd (call op s)))
    == total_slept (slept s) + spec_total_sleep 1 N.
Proof.
  intros op N s es sN v s' HN Hlen Hf Hok.
  rewrite call_decorated.
  rewrite (decorated_succeeds_after _ _ s es sN v s'
             (sleep_blind_attempt_of op) Hf ltac:(lia) Hok).
  cbn [fst snd self sent slept with_slept].
  repeat split.
  rewrite total_slept_app, Hlen. now rewrite spec_total_sleep_is_sum.
Qed.

(** The totals of C1, one per [N]: 0s, 1s, 3s. *)
Lemma spec_total_sleep_values :
  spec_total_sleep 1 1 == 0 /\
  spec_total_sleep 1 2 == 1 /\
  spec_total_sleep 1 3 == 3.
Proof. repeat split; reflexivity. Qed.

Lemma with_retry_returns_success_of_attempt_N_witness :
  fst (call ex_op (ex_fresh ex_net_third_time)) = Return ex_created /\
  total_slept (slept (snd (call ex_op (ex_fresh ex_net_third_time))))
  == 0 + spec_total_sleep 1 3.
Proof.
  pose proof
    (with_retry_returns_success_of_attempt_N ex_op 3
       (ex_fresh ex_net_third_time)
       [HTTPError 503 "busy"; HTTPError 500 "oops"]
       (ex_after ex_op 2 (ex_fresh ex_net_third_time))
       ex_created
       (ex_after ex_op 3 (ex_fresh ex_net_third_time))) as H.
  assert (H' := H ltac:(lia) eq_refl
                  ltac:(repeat (econstructor; try reflexivity))
                  eq_refl).
  split; [ exact (proj1 H') | exact (proj2 (proj2 (proj2 H'))) ].
Defined.

(** C2 (the code departs from it).  With all three attempts failing, the
    decorated call has slept three times, 1s, 2s and 4s: the third pause
    comes after the final attempt, just before the exception is raised. *)
Theorem with_retry_sleeps_after_final_attempt :
  fst (call ex_op (ex_fresh ex_net_never)) = Raise (HTTPError 429 "slow down")
  /\ slept (snd (call ex_op (ex_fresh ex_net_never))) = [1; 2; 4]
  /\ List.length (sent (snd (call ex_op (ex_fresh ex_net_never)))) = 4%nat.
Proof. repeat split; vm_compute; reflexivity. Qed.

(** C3.  When all three attempts of a decorated operation raise, the call
    raises the exception of the third attempt. *)
Theorem with_retry_raises_last_exception :
  forall op s e1 e2 e3 s3,
    fails (attempt_of op) s [e1; e2; e3] s3 ->
    fst (call op s) = Raise e3.
Proof.
  intros op s e1 e2 e3 s3 Hf. rewrite call_decorated.
  now rewrite (decorated_exhausted _ _ s e1 e2 e3 s3
                 (sleep_blind_attempt_of op) Hf).
Qed.

Lemma with_retry_raises_last_exception_witness :
  fst (call ex_op (ex_fresh ex_net_never)) = Raise (HTTPError 429 "slow down")
  /\ HTTPError 429 "slow down" <> HTTPError 503 "busy".
Proof.
  split; [ | discriminate ].
  apply (with_retry_raises_last_exception ex_op (ex_fresh ex_net_never)
           (HTTPError 503 "busy") (HTTPError 500 "oops")
           (HTTPError 429 "slow down")
           (ex_after ex_op 3 (ex_fresh ex_net_never))).
  repeat (econstructor; try reflexivity).
Defined.

(** ** Token acquisition and one attempt, unfolded *)

Lemma subscript_state : forall v k s, snd (subscript v k s) = s.
Proof.
  intros v k s. unfold subscript.
  destruct v; try reflexivity. now destruct (dict_get k kv).
Qed.

(** The fast path: a truthy cached token is returned at once. *)
Lemma _get_token_cached : forall s,
    truthy (_token (self s)) = true ->
    _get_token s = (Return (_token (self s)), s).
Proof.
  intros s H. unfold _get_token, bind, get_self. now rewrite H.
Qed.

(** The slow path, reply by reply. *)
Lemma _get_token_uncached : forall s,
    truthy (_token (self s)) = false ->
    _get_token s =
    let s1 := with_sent (sent s ++ [token_request (cfg (self s))]) s in
    match network s (sent s ++ [token_request (cfg (self s))]) with
    | Failed e => (Raise e, s1)
    | Answered r =>
        if is_error_status r
        then (Raise (HTTPError (status_code r) (content r)), s1)
        else
          match decoded r with
          | None => (Raise JSONDecodeError, s1)
          | Some j =>
              match fst (subscript j "access_token" s1) with
              | Return t =>
                  (Return t, with_self (mkGraphClient (cfg (self s)) t) s1)
              | Raise e => (Raise e, s1)
              end
          end
    end.
Proof.
  intros s H. unfold _get_token, bind, get_self. rewrite H.
  unfold requests_request. cbn [sent with_sent].
  destruct (network s (sent s ++ [token_request (cfg (self s))]))
    as [e | r]; [ reflexivity | ].
  unfold raise_for_status.
  destruct (is_error_status r); [ reflexivity | ].
  unfold ret at 1. unfold Response_json.
  destruct (decoded r) as [j | ]; [ | reflexivity ].
  unfold ret at 1.
  pose proof (subscript_state j "access_token"
                (with_sent (sent s ++ [token_request (cfg (self s))]) s)) as Hs.
  destruct (subscript j "access_token" _) as [[t | e] s2];
    cbn [fst snd] in *; subst s2; reflexivity.
Qed.

(** What [_get_token] can do to the state. *)
Lemma _get_token_spec : forall s o s',
    _get_token s = (o, s') ->
    (truthy (_token (self s)) = true /\
     o = Return (_token (self s)) /\ s' = s)
    \/
    (truthy (_token (self s)) = false /\
     sent s' = sent s ++ [token_request (cfg (self s))] /\
     ((exists e, o = Raise e /\ self s' = self s) \/
      (exists t, o = Return t /\
                 self s' = mkGraphClient (cfg (self s)) t))).
Proof.
  intros s o s' H.
  destruct (truthy (_token (self s))) eqn:Ht.
  - left. rewrite _get_token_cached in H by exact Ht.
    injection H as <- <-. auto.
  - right. rewrite _get_token_uncached in H by exact Ht. cbv zeta in H.
    split; [ reflexivity | ].
    destruct (network s _) as [e | r].
    { injection H as <- <-. split; [ reflexivity | left; eauto ]. }
    destruct (is_error_status r).
    { injection H as <- <-. split; [ reflexivity | left; eauto ]. }
    destruct (decoded r) as [j | ].
    2: { injection H as <- <-. split; [ reflexivity | left; eauto ]. }
    destruct (fst (subscript j "access_token" _)) as [t | e];
      injection H as <- <-; (split; [ reflexivity | ]);
      [ right | left ]; eauto.
Qed.

Lemma _get_token_fetches : forall s,
    truthy (_token (self s)) = false ->
    sent (snd (_get_token s)) = sent s ++ [token_request (cfg (self s))].
Proof.
  intros s Ht. destruct (_get_token s) as [o s'] eqn:H.
  apply _get_token_spec in H.
  destruct H as [(Ht' & _) | (_ & Hs & _)]; [ congruence | exact Hs ].
Qed.

(** An attempt whose token acquisition raises stops there. *)
Lemma attempt_of_token_raises : forall op s e s1,
    _get_token s = (Raise e, s1) ->
    attempt_of op s = (Raise e, s1).
Proof.
  intros op s e s1 H.
  destruct op; cbn [attempt_of];
    unfold create_event_fn, patch_event_fn, send_mail_fn, _request, _headers,
      bind, get_self; now rewrite H.
Qed.

(** An attempt whose token acquisition returns issues its one Graph request
    and goes by the reply. *)
Lemma attempt_of_unfold : forall op s tok s1,
    _get_token s = (Return tok, s1) ->
    attempt_of op s =
    let req := request_of (cfg (self s)) tok op in
    let s2 := with_sent (sent s1 ++ [req]) s1 in
    match network s1 (sent s1 ++ [req]) with
    | Failed e => (Raise e, s2)
    | Answered r =>
        if is_error_status r
        then (Raise (HTTPError (status_code r) (content r)), s2)
        else
          match (if content r =? "" then Some PyNone else decoded r) with
          | Some b => (Return (result_of op b), s2)
          | None => (Raise JSONDecodeError, s2)
          end
    end.
Proof.
  intros op s tok s1 H.
  destruct op; cbn [attempt_of request_of result_of];
    unfold create_event_fn, patch_event_fn, send_mail_fn, _request, _headers,
      bind, get_self; rewrite H;
    unfold ret at 1; unfold requests_request; cbn [sent with_sent];
    (destruct (network s1 _) as [e | r]; [ reflexivity | ]);
    unfold raise_for_status;
    (destruct (is_error_status r); [ reflexivity | ]);
    unfold ret at 1;
    (destruct (content r =? ""); [ reflexivity | ]);
    unfold Response_json; destruct (decoded r); reflexivity.
Qed.

Lemma attempt_of_sent : forall op s tok s1,
    _get_token s = (Return tok, s1) ->
    sent (snd (attempt_of op s))
    = sent s1 ++ [request_of (cfg (self s)) tok op]
    /\ self (snd (attempt_of op s)) = self s1.
Proof.
  intros op s tok s1 H. rewrite (attempt_of_unfold op s tok s1 H).
  cbv zeta. destruct (network s1 _) as [e | r]; [ now split | ].
  destruct (is_error_status r); [ now split | ].
  destruct (if content r =? "" then _ else _); now split.
Qed.

(** ** Counting token requests *)

Lemma token_requests_snoc : forall c l r,
    token_requests c (l ++ [r])
    = (token_requests c l + (if is_token_request c r then 1 else 0))%nat.
Proof.
  intros c l r. unfold token_requests. rewrite filter_app, length_app.
  cbn [filter]. now destruct (is_token_request c r).
Qed.

Lemma is_token_request_token_request : forall c,
    is_token_request c (token_request c) = true.
Proof.
  intros c. unfold is_token_request, token_request.
  cbn [url data]. now rewrite String.eqb_refl.
Qed.

Lemma is_token_request_request_of : forall c c' tok op,
    is_token_request c (request_of c' tok op) = false.
Proof.
  intros c c' tok op. unfold is_token_request.
  destruct op; cbn [request_of api_request data]; apply andb_false_r.
Qed.

(** With a truthy token in the cache an attempt talks to Graph only. *)
Lemma attempt_of_cached : forall op s c,
    truthy (_token (self s)) = true ->
    self (snd (attempt_of op s)) = self s /\
    token_requests c (sent (snd (attempt_of op s)))
    = token_requests c (sent s).
Proof.
  intros op s c Ht.
  destruct (attempt_of_sent op s _ s (_get_token_cached s Ht)) as [Hs Hself].
  split; [ exact Hself | ].
  rewrite Hs, token_requests_snoc, is_token_request_request_of. lia.
Qed.

(** An attempt that returns has fetched the token at most once. *)
Lemma attempt_of_fetches_once : forall op s v s1,
    attempt_of op s = (Return v, s1) ->
    (token_requests (cfg (self s)) (sent s1)
     <= token_requests (cfg (self s)) (sent s) + 1)%nat.
Proof.
  intros op s v s1 H.
  destruct (_get_token s) as [[tok | e] st] eqn:Htok.
  2: { rewrite (attempt_of_token_raises op s e st Htok) in H. discriminate. }
  destruct (attempt_of_sent op s tok st Htok) as [Hs _].
  rewrite H in Hs. cbn [snd] in Hs. rewrite Hs.
  rewrite token_requests_snoc, is_token_request_request_of.
  apply _get_token_spec in Htok.
  destruct Htok as [(_ & _ & ->) | (_ & -> & _)].
  - lia.
  - rewrite token_requests_snoc, is_token_request_token_request. lia.
Qed.

Lemma no_failure_cached : forall ops s s',
    no_failure ops s s' ->
    truthy (_token (self s)) = true ->
    forall c,
      self s' = self s /\
      token_requests c (sent s') = token_requests c (sent s).
Proof.
  induction 1 as [s | op ops s v s1 s2 Hop _ IH]; intros Ht c.
  - now split.
  - destruct (attempt_of_cached op s c Ht) as [Hself Hcount].
    rewrite Hop in Hself, Hcount. cbn [snd] in Hself, Hcount.
    destruct (IH ltac:(now rewrite Hself) c) as [Hself' Hcount'].
    split; congruence.
Qed.

(** A run without failure is the run the caller sees. *)
Lemma no_failure_run_calls : forall ops s s',
    no_failure ops s s' -> run_calls ops s = s'.
Proof.
  induction 1 as [s | op ops s v s1 s2 Hop _ IH]; [ reflexivity | ].
  cbn [run_calls]. rewrite call_decorated.
  now rewrite (decorated_first_try _ _ s v s1 Hop).
Qed.

Lemma snoc_neq : forall A (l : list A) x, l ++ [x] <> l.
Proof.
  intros A l x H. apply (f_equal (@List.length A)) in H.
  rewrite length_app in H. cbn in H. lia.
Qed.

(** ** The token cache: claims C4, C9, C10 *)

(** C4 as stated fails: two calls, neither failing, and the identity
    endpoint was asked twice, because the token it granted is empty. *)
Lemma token_fetched_twice_counterexample :
  ~ (forall ops s s',
        no_failure ops s s' ->
        (token_requests (cfg (self s)) (sent s')
         <= token_requests (cfg (self s)) (sent s) + 1)%nat).
Proof.
  intros H.
  specialize (H [ex_op; ex_op] (ex_fresh ex_net_empty_token)
                (ex_after ex_op 2 (ex_fresh ex_net_empty_token))).
  assert (Hrun : no_failure [ex_op; ex_op] (ex_fresh ex_net_empty_token)
                   (ex_after ex_op 2 (ex_fresh ex_net_empty_token)))
    by (repeat (econstructor; try reflexivity)).
  specialize (H Hrun). vm_compute in H. lia.
Qed.

(** C4, amended.  When the first call returns and leaves a truthy token in
    the cache, that call asked the identity endpoint at most once, and in
    any calls that follow without failure the endpoint is not asked again:
    the client keeps its token, and [_get_token] returns it at once from
    the cache, whatever its age. *)
Theorem token_fetched_at_most_once :
  forall op ops s v s1 s',
    attempt_of op s = (Return v, s1) ->
    truthy (_token (self s1)) = true ->
    no_failure ops s1 s' ->
    (token_requests (cfg (self s)) (sent s1)
     <= token_requests (cfg (self s)) (sent s) + 1)%nat /\
    token_requests (cfg (self s)) (sent s')
    = token_requests (cfg (self s)) (sent s1) /\
    self s' = self s1 /\
    _get_token s' = (Return (_token (self s1)), s').
Proof.
  intros op ops s v s1 s' Hop Ht Hrun.
  destruct (no_failure_cached ops s1 s' Hrun Ht (cfg (self s)))
    as [Hself Hcount].
  repeat split.
  - exact (attempt_of_fetches_once op s v s1 Hop).
  - exact Hcount.
  - exact Hself.
  - rewrite <- Hself. apply _get_token_cached. now rewrite Hself.
Qed.

Lemma token_fetched_at_most_once_witness :
  token_requests ex_cfg
    (sent (ex_after ex_op 3 (ex_fresh ex_net_ok))) = 1%nat.
Proof.
  pose proof
    (token_fetched_at_most_once ex_op [ex_op; ex_op] (ex_fresh ex_net_ok)
       ex_created
       (ex_after ex_op 1 (ex_fresh ex_net_ok))
       (ex_after ex_op 3 (ex_fresh ex_net_ok))
       eq_refl eq_refl
       ltac:(repeat (econstructor; try reflexivity))) as (_ & H & _).
  transitivity
    (token_requests ex_cfg (sent (ex_after ex_op 1 (ex_fresh ex_net_ok))));
    [ exact H | reflexivity ].
Defined.

(** The two failures C9 names do raise. *)
Lemma _get_token_error_status : forall s r,
    truthy (_token (self s)) = false ->
    network s (sent s ++ [token_request (cfg (self s))]) = Answered r ->
    is_error_status r = true ->
    fst (_get_token s) = Raise (HTTPError (status_code r) (content r)).
Proof.
  intros s r Ht Hr He. rewrite _get_token_uncached by exact Ht.
  cbv zeta. now rewrite Hr, He.
Qed.

Lemma _get_token_missing_field : forall s r kv,
    truthy (_token (self s)) = false ->
    network s (sent s ++ [token_request (cfg (self s))]) = Answered r ->
    is_error_status r = false ->
    decoded r = Some (PyDict kv) ->
    dict_get "access_token" kv = None ->
    fst (_get_token s) = Raise (KeyError "access_token").
Proof.
  intros s r kv Ht Hr He Hd Hk. rewrite _get_token_uncached by exact Ht.
  cbv zeta. rewrite Hr, He, Hd. unfold subscript. now rewrite Hk.
Qed.

(** C9.  Whatever [_get_token] does: if it raises, the client object is as
    it was before the call, cached token included, and the next
    [_get_token] asks the identity endpoint afresh; and if the cached token
    differs after the call, the call returned, and what it returned is the
    token now cached, fetched by one request. *)
Theorem token_fetch_failure_leaves_cache :
  forall s o s',
    _get_token s = (o, s') ->
    (forall e, o = Raise e ->
               self s' = self s /\
               truthy (_token (self s)) = false /\
               sent (snd (_get_token s'))
               = sent s' ++ [token_request (cfg (self s'))]) /\
    (_token (self s') <> _token (self s) ->
     exists t, o = Return t /\ _token (self s') = t /\
               sent s' = sent s ++ [token_request (cfg (self s))]).
Proof.
  intros s o s' H. apply _get_token_spec in H.
  destruct H as [(Ht & -> & ->) | (Ht & Hs & [(e & -> & Hself) | (t & -> & Hself)])].
  - split; [ discriminate | ]. intros Hne. now elim Hne.
  - split.
    + intros _ _. repeat split; [ exact Hself | exact Ht | ].
      apply _get_token_fetches. now rewrite Hself.
    + intros Hne. elim Hne. now rewrite Hself.
  - split; [ discriminate | ].
    intros _. exists t. rewrite Hself. auto.
Qed.

Lemma token_fetch_failure_leaves_cache_witness :
  fst (_get_token (ex_fresh ex_net_denied))
  = Raise (HTTPError 401 "invalid_client") /\
  _token (self (snd (_get_token (ex_fresh ex_net_denied)))) = PyNone.
Proof.
  split; [ reflexivity | ].
  destruct (token_fetch_failure_leaves_cache (ex_fresh ex_net_denied)
              (Raise (HTTPError 401 "invalid_client"))
              (snd (_get_token (ex_fresh ex_net_denied))) eq_refl)
    as [H _].
  destruct (H _ eq_refl) as [Hself _]. now rewrite Hself.
Defined.

(** The fast path is the truthy case, whatever the type of the token. *)
Lemma fast_path_iff_truthy : forall s,
    sent (snd (_get_token s)) = sent s <-> truthy (_token (self s)) = true.
Proof.
  intros s. split.
  - intros H. destruct (truthy (_token (self s))) eqn:Ht; [ reflexivity | ].
    rewrite _get_token_fetches in H by exact Ht. now apply snoc_neq in H.
  - intros Ht. now rewrite _get_token_cached.
Qed.

(** C10.  For a cached token of its declared type [Optional[str]], the
    fast path (no request is issued) is taken exactly when the token is a
    non-empty string.  And when a fetch succeeds with the empty string in
    [access_token], that string is returned and stored, and [_get_token]
    asks the identity endpoint again in every state that holds it. *)
Theorem fast_path_iff_nonempty_string :
  (forall s,
      is_optional_str (_token (self s)) = true ->
      (sent (snd (_get_token s)) = sent s <->
       exists str, _token (self s) = PyStr str /\ str <> "")) /\
  (forall s r kv,
      truthy (_token (self s)) = false ->
      network s (sent s ++ [token_request (cfg (self s))]) = Answered r ->
      is_error_status r = false ->
      decoded r = Some (PyDict kv) ->
      dict_get "access_token" kv = Some (PyStr "") ->
      fst (_get_token s) = Return (PyStr "") /\
      _token (self (snd (_get_token s))) = PyStr "" /\
      forall s2,
        _token (self s2) = PyStr "" ->
        sent (snd (_get_token s2))
        = sent s2 ++ [token_request (cfg (self s2))]).
Proof.
  split.
  - intros s Hty. rewrite fast_path_iff_truthy.
    destruct (_token (self s)) as [ | b | z | q | str | l | kv ];
      try discriminate; cbn [truthy].
    + split; [ discriminate | ]. now intros (str & Hs & _).
    + rewrite negb_true_iff, String.eqb_neq. split.
      * intros Hne. now exists str.
      * intros (str' & Hs & Hne). now injection Hs as ->.
  - intros s r kv Ht Hr He Hd Hk.
    rewrite _get_token_uncached by exact Ht. cbv zeta.
    rewrite Hr, He, Hd. unfold subscript. rewrite Hk.
    repeat split.
    intros s2 H2. apply _get_token_fetches. now rewrite H2.
Qed.

Lemma fast_path_iff_nonempty_string_witness :
  sent (snd (_get_token (ex_after ex_op 1 (ex_fresh ex_net_ok))))
  = sent (ex_after ex_op 1 (ex_fresh ex_net_ok)) /\
  List.length
    (sent (snd (_get_token (snd (_get_token (ex_fresh ex_net_empty_token))))))
  = 2%nat.
Proof.
  destruct fast_path_iff_nonempty_string as [Hfast Hempty].
  split.
  - apply (Hfast (ex_after ex_op 1 (ex_fresh ex_net_ok)) eq_refl).
    exists "tok". split; [ reflexivity | discriminate ].
  - destruct (Hempty (ex_fresh ex_net_empty_token)
                (mkResponse 200 "{...}"
                   (Some (PyDict [("access_token", PyStr "")])))
                [("access_token", PyStr "")]
                eq_refl eq_refl eq_refl eq_refl eq_refl)
      as (_ & Htok & Hnext).
    rewrite (Hnext _ Htok). reflexivity.
Defined.

(** ** The three operations: claims C5, C6, C7 *)

(** C5 as stated fails: Graph answers 200 with the body [[]], and
    [create_event] returns an empty dict instead of the decoded list, although
    the response had a body. *)
Lemma create_event_falsy_body_counterexample :
  ~ (forall payload s tok s1 r body,
        _get_token s = (Return tok, s1) ->
        network s1
          (sent s1
           ++ [mkRequest "POST" (events_url (cfg (self s)))
                 (Some (bearer_headers tok)) (Some [("sendUpdates", "all")])
                 None payload 20])
        = Answered r ->
        is_error_status r = false ->
        content r <> "" ->
        decoded r = Some body ->
        fst (create_event payload send_updates_default s) = Return body).
Proof.
  intros H.
  specialize (H ex_event (ex_fresh ex_net_empty_list) (PyStr "tok")
                (snd (_get_token (ex_fresh ex_net_empty_list)))
                (mkResponse 200 "[]" (Some (PyList []))) (PyList [])
                eq_refl eq_refl eq_refl ltac:(discriminate) eq_refl).
  vm_compute in H. discriminate.
Qed.

(** C5, amended.  In an attempt whose token acquisition returns,
    [create_event] issues exactly one request more: a POST to
    [{base_url}/users/{mailbox}/events] with the query [sendUpdates=all]
    (the default) and the caller's payload as JSON body.  When the reply is
    not an error status, the call returns the empty dict if the response has
    no content, and otherwise the decoded body itself if it is truthy and
    the empty dict if it is falsy. *)
Theorem create_event_posts_payload_and_returns_body :
  forall payload s tok s1,
    _get_token s = (Return tok, s1) ->
    sent (snd (create_event_fn payload send_updates_default s))
    = sent s1
      ++ [mkRequest "POST" (events_url (cfg (self s)))
            (Some (bearer_headers tok)) (Some [("sendUpdates", "all")])
            None payload 20]
    /\
    forall r,
      network s1
        (sent s1
         ++ [mkRequest "POST" (events_url (cfg (self s)))
               (Some (bearer_headers tok)) (Some [("sendUpdates", "all")])
               None payload 20])
      = Answered r ->
      is_error_status r = false ->
      (content r = "" ->
       fst (create_event payload send_updates_default s)
       = Return (PyDict [])) /\
      (forall body,
          content r <> "" ->
          decoded r = Some body ->
          fst (create_event payload send_updates_default s)
          = Return (if truthy body then body else PyDict [])).
Proof.
  intros payload s tok s1 Htok.
  pose proof (attempt_of_sent (CreateEvent payload send_updates_default)
                s tok s1 Htok) as [Hsent _].
  pose proof (attempt_of_unfold (CreateEvent payload send_updates_default)
                s tok s1 Htok) as Hun.
  cbn [attempt_of request_of result_of] in Hsent, Hun. cbv zeta in Hun.
  split; [ exact Hsent | ].
  intros r Hr He. unfold create_event, send_updates_default.
  unfold api_request, send_updates_default in Hun. rewrite Hr, He in Hun.
  split.
  - intros Hc. rewrite Hc in Hun. cbn [String.eqb] in Hun.
    now rewrite (decorated_first_try _ _ _ _ _ Hun).
  - intros body Hc Hd. apply String.eqb_neq in Hc. rewrite Hc, Hd in Hun.
    now rewrite (decorated_first_try _ _ _ _ _ Hun).
Qed.

Lemma create_event_posts_payload_and_returns_body_witness :
  fst (create_event ex_event send_updates_default (ex_fresh ex_net_ok))
  = Return ex_created /\
  fst (create_event ex_event send_updates_default
         (ex_fresh ex_net_empty_list))
  = Return (PyDict []).
Proof.
  split.
  - destruct (create_event_posts_payload_and_returns_body ex_event
                (ex_fresh ex_net_ok) (PyStr "tok")
                (snd (_get_token (ex_fresh ex_net_ok))) eq_refl)
      as [_ H].
    destruct (H (mkResponse 201 "{...}" (Some ex_created)) eq_refl eq_refl)
      as [_ Hbody].
    apply (Hbody ex_created); [ discriminate | reflexivity ].
  - destruct (create_event_posts_payload_and_returns_body ex_event
                (ex_fresh ex_net_empty_list) (PyStr "tok")
                (snd (_get_token (ex_fresh ex_net_empty_list))) eq_refl)
      as [_ H].
    destruct (H (mkResponse 200 "[]" (Some (PyList []))) eq_refl eq_refl)
      as [_ Hbody].
    apply (Hbody (PyList [])); [ discriminate | reflexivity ].
Defined.

(** C6.  In an attempt whose token acquisition returns, [send_mail] issues
    exactly one request more: a POST to [{base_url}/users/{mailbox}/sendMail]
    without query parameters, whose JSON body is a dict of [message] and
    [saveToSentItems = True].  In [message], [toRecipients] holds one
    [{"emailAddress": {"address": addr}}] per input address, in input
    order; the key [attachments] is absent when the argument is [None] or
    an empty list, and holds the supplied list itself when that list is not
    empty. *)
Theorem send_mail_builds_message :
  forall to subject body attachments s tok s1,
    _get_token s = (Return tok, s1) ->
    exists message,
      sent (snd (send_mail_fn to subject body attachments s))
      = sent s1
        ++ [mkRequest "POST" (sendMail_url (cfg (self s)))
              (Some (bearer_headers tok)) None None
              (PyDict [("message", PyDict message);
                       ("saveToSentItems", PyBool true)]) 20] /\
      dict_get "subject" message = Some subject /\
      dict_get "body" message
      = Some (PyDict [("contentType", PyStr "HTML"); ("content", body)]) /\
      dict_get "toRecipients" message
      = Some (PyList
                (map (fun addr =>
                        PyDict [("emailAddress",
                                 PyDict [("address", addr)])]) to)) /\
      (attachments = PyNone \/ attachments = PyList [] ->
       dict_get "attachments" message = None) /\
      (forall a l, attachments = PyList (a :: l) ->
                   dict_get "attachments" message = Some attachments).
Proof.
  intros to subject body attachments s tok s1 Htok.
  exists (mail_message to subject body attachments).
  split.
  { exact (proj1 (attempt_of_sent (SendMail to subject body attachments)
                    s tok s1 Htok)). }
  unfold mail_message.
  destruct (truthy attachments) eqn:Ht.
  - repeat split; try reflexivity.
    + intros [-> | ->]; discriminate.
  - repeat split; try reflexivity.
    intros a l ->. discriminate.
Qed.

Lemma send_mail_builds_message_witness :
  exists message,
    map json (sent (snd (attempt_of ex_mail (ex_fresh ex_net_ok))))
    = [PyNone;
       PyDict [("message", PyDict message);
               ("saveToSentItems", PyBool true)]] /\
    dict_get "toRecipients" message
    = Some (PyList
              [PyDict [("emailAddress", PyDict [("address", PyStr "a@x.com")])];
               PyDict [("emailAddress", PyDict [("address", PyStr "b@x.com")])]])
    /\ dict_get "attachments" message = None.
Proof.
  destruct (send_mail_builds_message
              [PyStr "a@x.com"; PyStr "b@x.com"] (PyStr "Subj")
              (PyStr "<p>Hi</p>") PyNone
              (ex_fresh ex_net_ok) (PyStr "tok")
              (snd (_get_token (ex_fresh ex_net_ok))) eq_refl)
    as (message & Hsent & _ & _ & Hto & Hnone & _).
  exists message. split; [ | split ].
  - change (attempt_of ex_mail)
      with (send_mail_fn [PyStr "a@x.com"; PyStr "b@x.com"] (PyStr "Subj")
              (PyStr "<p>Hi</p>") PyNone).
    rewrite Hsent. reflexivity.
  - exact Hto.
  - apply Hnone. now left.
Defined.

(** C7.  In an attempt whose token acquisition returns, [patch_event]
    issues exactly one request more: a PATCH to
    [{base_url}/users/{mailbox}/events/{event_id}] with the query
    [sendUpdates={send_updates}] and the patch payload as JSON body.  And
    whenever the decorated call returns, it returns [None], whatever the
    response was. *)
Theorem patch_event_patches_and_returns_none :
  forall event_id patch_payload send_updates s,
    (forall tok s1,
        _get_token s = (Return tok, s1) ->
        sent (snd (patch_event_fn event_id patch_payload send_updates s))
        = sent s1
          ++ [mkRequest "PATCH"
                (base_url (cfg (self s)) ++ "/users/"
                 ++ scheduler_mailbox (cfg (self s)) ++ "/events/"
                 ++ event_id)%string
                (Some (bearer_headers tok))
                (Some [("sendUpdates", send_updates)])
                None patch_payload 20]) /\
    (forall v s',
        patch_event event_id patch_payload send_updates s = (Return v, s') ->
        v = PyNone).
Proof.
  intros event_id patch_payload send_updates s. split.
  - intros tok s1 Htok.
    exact (proj1 (attempt_of_sent
                    (PatchEvent event_id patch_payload send_updates)
                    s tok s1 Htok)).
  - intros v s' Hret. unfold patch_event, decorated, with_retry in Hret.
    refine (retry_loop_returns 1 _ (fun v => v = PyNone) _ _ _ _ _ _ Hret).
    clear. intros s v s' H.
    change (patch_event_fn event_id patch_payload send_updates)
      with (attempt_of (PatchEvent event_id patch_payload send_updates)) in H.
    destruct (_get_token s) as [[tok | e] s1] eqn:Htok.
    + rewrite (attempt_of_unfold
                 (PatchEvent event_id patch_payload send_updates)
                 s tok s1 Htok) in H.
      cbv zeta in H. cbn [result_of] in H.
      destruct (network s1 _) as [e | r]; [ discriminate | ].
      destruct (is_error_status r); [ discriminate | ].
      destruct (if content r =? "" then _ else _); [ | discriminate ].
      now injection H as <- _.
    + rewrite (attempt_of_token_raises
                 (PatchEvent event_id patch_payload send_updates)
                 s e s1 Htok) in H.
      discriminate.
Qed.

Lemma patch_event_patches_and_returns_none_witness :
  fst (call ex_patch (ex_fresh ex_net_ok)) = Return PyNone /\
  map method (sent (snd (call ex_patch (ex_fresh ex_net_ok))))
  = ["POST"; "PATCH"].
Proof.
  split; [ | reflexivity ].
  destruct (call ex_patch (ex_fresh ex_net_ok)) as [[v | e] s'] eqn:H;
    [ | discriminate H ].
  cbn [fst]. f_equal.
  exact (proj2 (patch_event_patches_and_returns_none _ _ _ _) v s' H).
Defined.

(** ** The configuration: claim C8 *)

Lemma keeps_cfg_call op : keeps_cfg (call op).
Proof.
  rewrite call_decorated. unfold decorated, with_retry.
  apply retry_loop_keeps_cfg, keeps_cfg_attempt_of.
Qed.

(** C8.  No operation of the client writes the configuration: token
    acquisition, header building, the generic request, each attempt and each
    decorated call leave the five fields as they found them, and after any
    sequence of calls on a client built from [c] the configuration is [c]. *)
Theorem configuration_is_never_modified :
  (forall s, cfg (self (snd (_get_token s))) = cfg (self s)) /\
  (forall s, cfg (self (snd (_headers s))) = cfg (self s)) /\
  (forall meth u ps j s,
      cfg (self (snd (_request meth u ps j s))) = cfg (self s)) /\
  (forall op s, cfg (self (snd (attempt_of op s))) = cfg (self s)) /\
  (forall op s, cfg (self (snd (call op s))) = cfg (self s)) /\
  (forall ops s, cfg (self (run_calls ops s)) = cfg (self s)) /\
  (forall tenant client secret mailbox base net ops,
      let c := GraphConfig_init tenant client secret mailbox base in
      let s' := run_calls ops (mkState (GraphClient_init c) net [] []) in
      tenant_id (cfg (self s')) = tenant /\
      client_id (cfg (self s')) = client /\
      client_secret (cfg (self s')) = secret /\
      scheduler_mailbox (cfg (self s')) = mailbox /\
      base_url (cfg (self s')) = base_url c).
Proof.
  assert (Hrun : forall ops s, cfg (self (run_calls ops s)) = cfg (self s)).
  { induction ops as [| op ops IH]; intros s; [ reflexivity | ].
    cbn [run_calls]. rewrite IH. apply keeps_cfg_call. }
  repeat match goal with |- _ /\ _ => split end.
  - exact keeps_cfg__get_token.
  - exact keeps_cfg__headers.
  - intros. apply keeps_cfg__request.
  - intros. apply keeps_cfg_attempt_of.
  - intros. apply keeps_cfg_call.
  - exact Hrun.
  - intros tenant client secret mailbox base net ops c s'.
    subst s'. rewrite Hrun. cbn. auto.
Qed.

(** * Further properties of the code *)

(** ** The retry loop for any number of attempts and any base delay *)

Lemma range_nonpositive : forall n, (n <= 0)%Z -> range n = [].
Proof.
  intros n Hn. unfold range.
  replace (Z.to_nat n) with 0%nat by lia. reflexivity.
Qed.

Lemma range_of_nat : forall k, range (Z.of_nat k) = map Z.of_nat (seq 0 k).
Proof. intros k. unfold range. now rewrite Nat2Z.id. Qed.

Lemma range_split : forall n k,
    (Z.of_nat k < n)%Z ->
    exists rest, range n = range (Z.of_nat k) ++ Z.of_nat k :: rest.
Proof.
  intros n k Hk. rewrite range_of_nat. unfold range.
  replace (Z.to_nat n) with (k + S (Z.to_nat n - k - 1))%nat by lia.
  rewrite seq_app, map_app. cbn [seq map plus]. eauto.
Qed.


(** X1.  [with_retry] asked for no attempt at all never calls the function: it
    reaches [raise last_exc] with [last_exc] still [None], which is a
    [TypeError]. *)
Theorem with_retry_without_attempts :
  forall A max_attempts base_delay_s (fn : M A) s,
    (max_attempts <= 0)%Z ->
    with_retry max_attempts base_delay_s fn s
    = (Raise (TypeError "exceptions must derive from BaseException"), s).
Proof.
  intros A n base fn s Hn. unfold with_retry.
  now rewrite range_nonpositive.
Qed.

Lemma with_retry_without_attempts_witness :
  with_retry 0 1 (attempt_of ex_op) (ex_fresh ex_net_ok)
  = (Raise (TypeError "exceptions must derive from BaseException"),
     ex_fresh ex_net_ok).
Proof.
  apply (with_retry_without_attempts PyVal 0 1 (attempt_of ex_op)
           (ex_fresh ex_net_ok)).
  lia.
Defined.

(** X2.  An exception that is not an [Exception] passes through [with_retry] at
    once: no pause, no further attempt, the state as the attempt left it. *)
Theorem with_retry_lets_base_exceptions_through :
  forall A max_attempts base_delay_s (fn : M A) s e s',
    (1 <= max_attempts)%Z ->
    fn s = (Raise e, s') ->
    is_Exception e = false ->
    with_retry max_attempts base_delay_s fn s = (Raise e, s').
Proof.
  intros A n base fn s e s' Hn Hfn He. unfold with_retry.
  destruct (range_split n 0 ltac:(lia)) as [rest ->].
  cbn [range Z.to_nat Z.of_nat seq map app retry_loop].
  now rewrite Hfn, He.
Qed.

Lemma with_retry_lets_base_exceptions_through_witness :
  call ex_op (ex_cached ex_net_interrupt)
  = (Raise KeyboardInterrupt,
     snd (attempt_of ex_op (ex_cached ex_net_interrupt))) /\
  slept (snd (call ex_op (ex_cached ex_net_interrupt))) = [].
Proof.
  assert (H : call ex_op (ex_cached ex_net_interrupt)
              = (Raise KeyboardInterrupt,
                 snd (attempt_of ex_op (ex_cached ex_net_interrupt)))).
  { apply (with_retry_lets_base_exceptions_through PyVal 3 1
             (attempt_of ex_op) (ex_cached ex_net_interrupt)
             KeyboardInterrupt
             (snd (attempt_of ex_op (ex_cached ex_net_interrupt))));
      [ lia | reflexivity | reflexivity ]. }
  split; [ exact H | ]. rewrite H. reflexivity.
Defined.





(** ** What a decorated call can do *)




(** [_get_token] issues at most one request and otherwise only writes the
    cached token. *)
Lemma _get_token_shape : forall s,
    exists t l,
      snd (_get_token s)
      = mkState (mkGraphClient (cfg (self s)) t) (network s)
                (sent s ++ l) (slept s) /\
      (List.length l <= 1)%nat.
Proof.
  intros s. destruct (truthy (_token (self s))) eqn:Ht.
  - rewrite _get_token_cached by exact Ht.
    exists (_token (self s)), []. destruct s as [[c t] n se sl]. cbn.
    rewrite app_nil_r. auto.
  - rewrite _get_token_uncached by exact Ht. cbv zeta.
    assert (Hs : with_sent (sent s ++ [token_request (cfg (self s))]) s
                 = mkState (mkGraphClient (cfg (self s)) (_token (self s)))
                     (network s)
                     (sent s ++ [token_request (cfg (self s))]) (slept s))
      by now destruct s as [[c t] n se sl].
    destruct (network s _) as [e | r];
      [ exists (_token (self s)), [token_request (cfg (self s))]; auto | ].
    destruct (is_error_status r);
      [ exists (_token (self s)), [token_request (cfg (self s))]; auto | ].
    destruct (decoded r) as [j | ];
      [ | exists (_token (self s)), [token_request (cfg (self s))]; auto ].
    destruct (fst (subscript j "access_token" _)) as [t | e];
      [ exists t, [token_request (cfg (self s))]; auto
      | exists (_token (self s)), [token_request (cfg (self s))]; auto ].
Qed.

(** One attempt issues at most two requests, the token request and the
    Graph request, never sleeps, and leaves the peer as it is. *)
Lemma attempt_of_shape : forall op s,
    exists c l,
      snd (attempt_of op s)
      = mkState c (network s) (sent s ++ l) (slept s) /\
      (List.length l <= 2)%nat.
Proof.
  intros op s.
  destruct (_get_token_shape s) as (t & l & Hs & Hl).
  destruct (_get_token s) as [[tok | e] s1] eqn:Htok; cbn [snd] in Hs.
  - destruct (attempt_of_sent op s tok s1 Htok) as [Hsent Hself].
    pose proof (attempt_of_unfold op s tok s1 Htok) as Hun. cbv zeta in Hun.
    exists (mkGraphClient (cfg (self s)) t),
           (l ++ [request_of (cfg (self s)) tok op]).
    split; [ | rewrite length_app; cbn; lia ].
    assert (Hshape : forall o,
               snd (o : Outcome PyVal,
                    with_sent
                      (sent s1 ++ [request_of (cfg (self s)) tok op]) s1)
               = mkState (mkGraphClient (cfg (self s)) t) (network s)
                   (sent s ++ l ++ [request_of (cfg (self s)) tok op])
                   (slept s)).
    { intros o. rewrite Hs. cbn. now rewrite <- app_assoc. }
    rewrite Hun. destruct (network s1 _) as [e | r]; [ apply Hshape | ].
    destruct (is_error_status r); [ apply Hshape | ].
    destruct (if content r =? "" then _ else _); apply Hshape.
  - rewrite (attempt_of_token_raises op s e s1 Htok). cbn [snd].
    exists (mkGraphClient (cfg (self s)) t), l. split; [ exact Hs | lia ].
Qed.

(** The loop over [ks] issues at most [k] requests per attempt when each
    attempt issues at most [k], and its pauses are the first backoffs of
    [ks], in order. *)
Lemma retry_loop_bounded : forall A base (fn : M A) k,
    (forall s, exists c l,
          snd (fn s) = mkState c (network s) (sent s ++ l) (slept s) /\
          (List.length l <= k)%nat) ->
    forall ks last_exc s,
    exists l d d',
      sent (snd (retry_loop base fn ks last_exc s)) = sent s ++ l /\
      (List.length l <= k * List.length ks)%nat /\
      slept (snd (retry_loop base fn ks last_exc s)) = slept s ++ d /\
      map (backoff base) ks = d ++ d'.
Proof.
  intros A base fn k Hfn. induction ks as [| a ks IH]; intros last_exc s.
  - exists [], [], []. cbn [retry_loop].
    destruct last_exc; cbn; rewrite !app_nil_r; repeat split; lia.
  - cbn [retry_loop]. destruct (Hfn s) as (c & l1 & Hs & Hl1).
    destruct (fn s) as [[v | e] s1]; cbn [snd] in Hs; subst s1.
    + exists l1, [], (map (backoff base) (a :: ks)). cbn.
      rewrite app_nil_r. repeat split; lia.
    + destruct (is_Exception e).
      * unfold bind, sleep. cbn [slept with_slept self network sent].
        match goal with
        | |- context [retry_loop base fn ks (Some e) ?st] =>
            destruct (IH (Some e) st) as (l2 & d2 & d2' & H1 & H2 & H3 & H4)
        end.
        exists (l1 ++ l2), (backoff base a :: d2), d2'.
        rewrite H1, H3. cbn. rewrite <- !app_assoc, length_app, H4.
        repeat split; lia.
      * exists l1, [], (map (backoff base) (a :: ks)). cbn.
        rewrite app_nil_r. repeat split; lia.
Qed.

(** X6.  One decorated call does bounded work, whatever the peer answers: it
    issues at most six requests (three attempts of a token request and a
    Graph request each) and its pauses are an initial part of 1s, 2s, 4s. *)
Theorem call_does_bounded_work :
  forall op s,
  exists l d,
    sent (snd (call op s)) = sent s ++ l /\
    (List.length l <= 6)%nat /\
    slept (snd (call op s)) = slept s ++ d /\
    (d = [] \/ d = [1] \/ d = [1; 2] \/ d = [1; 2; 4]).
Proof.
  intros op s. rewrite call_decorated. unfold decorated, with_retry.
  rewrite range_3.
  destruct (retry_loop_bounded PyVal 1 (attempt_of op) 2
              (attempt_of_shape op) [0; 1; 2]%Z None s)
    as (l & d & d' & Hl & Hlen & Hd & Hpre).
  exists l, d. repeat split; [ exact Hl | cbn in Hlen; lia | exact Hd | ].
  change (map (backoff 1) [0; 1; 2]%Z) with [1; 2; 4] in Hpre.
  destruct d as [| q1 [| q2 [| q3 [| q4 d]]]]; cbn in Hpre.
  - now left.
  - injection Hpre as <- _. right; now left.
  - injection Hpre as <- <- _. right; right; now left.
  - injection Hpre as <- <- <- _. right; right; now right.
  - discriminate.
Qed.

(** ** The token across failures *)

Lemma retry_loop_preserves : forall A base (fn : M A) (P : State -> Prop),
    (forall s, P s -> P (snd (fn s))) ->
    (forall l s, P s -> P (with_slept l s)) ->
    forall ks last_exc s,
      P s -> P (snd (retry_loop base fn ks last_exc s)).
Proof.
  intros A base fn P Hfn Hsleep.
  induction ks as [| k ks IH]; intros last_exc s HP.
  - now destruct last_exc.
  - cbn [retry_loop]. specialize (Hfn s HP).
    destruct (fn s) as [[v | e] s1]; cbn [snd] in *; [ exact Hfn | ].
    destruct (is_Exception e); [ | exact Hfn ].
    unfold bind, sleep. apply IH, Hsleep, Hfn.
Qed.

Lemma call_cached : forall op s c,
    truthy (_token (self s)) = true ->
    self (snd (call op s)) = self s /\
    token_requests c (sent (snd (call op s))) = token_requests c (sent s).
Proof.
  intros op s c Ht. rewrite call_decorated. unfold decorated, with_retry.
  apply (retry_loop_preserves PyVal 1 (attempt_of op)
           (fun s' => self s' = self s /\
                      token_requests c (sent s') = token_requests c (sent s))).
  - intros s' [Hself Hcount].
    destruct (attempt_of_cached op s' c ltac:(now rewrite Hself)) as [H1 H2].
    split; congruence.
  - intros l s' H. exact H.
  - now split.
Qed.

(** X7.  Once a truthy token is cached, no sequence of calls asks the identity
    endpoint again or writes the client object, whether the calls succeed or
    fail: a token that Graph has come to refuse is never replaced. *)
Theorem cached_token_is_never_refreshed :
  forall ops s c,
    truthy (_token (self s)) = true ->
    self (run_calls ops s) = self s /\
    token_requests c (sent (run_calls ops s)) = token_requests c (sent s).
Proof.
  induction ops as [| op ops IH]; intros s c Ht; [ now split | ].
  cbn [run_calls].
  destruct (call_cached op s c Ht) as [Hself Hcount].
  destruct (IH (snd (call op s)) c ltac:(now rewrite Hself)) as [H1 H2].
  split; congruence.
Qed.

Lemma cached_token_is_never_refreshed_witness :
  _token (self (run_calls [ex_op; ex_mail] (ex_cached ex_net_denied)))
  = PyStr "tok" /\
  token_requests ex_cfg
    (sent (run_calls [ex_op; ex_mail] (ex_cached ex_net_denied))) = 0%nat.
Proof.
  destruct (cached_token_is_never_refreshed [ex_op; ex_mail]
              (ex_cached ex_net_denied) ex_cfg eq_refl) as [Hself Hcount].
  split; [ now rewrite Hself | exact Hcount ].
Defined.

(** X8.  When token acquisition raises, the attempt raises the same exception
    and stops: the one request it has issued is the token request, Graph is
    not contacted, and the client object is as before. *)
Theorem no_graph_request_without_token :
  forall op s e s1,
    _get_token s = (Raise e, s1) ->
    attempt_of op s = (Raise e, s1) /\
    sent s1 = sent s ++ [token_request (cfg (self s))] /\
    self s1 = self s.
Proof.
  intros op s e s1 H. split; [ now apply attempt_of_token_raises | ].
  apply _get_token_spec in H.
  destruct H as [(_ & H & _) | (_ & Hs & [(e' & _ & Hself) | (t & H & _)])];
    try discriminate.
  now split.
Qed.

Lemma no_graph_request_without_token_witness :
  attempt_of ex_mail (ex_fresh ex_net_denied)
  = (Raise (HTTPError 401 "invalid_client"),
     snd (_get_token (ex_fresh ex_net_denied))) /\
  sent (snd (_get_token (ex_fresh ex_net_denied)))
  = [] ++ [token_request ex_cfg].
Proof.
  destruct (no_graph_request_without_token ex_mail (ex_fresh ex_net_denied)
              (HTTPError 401 "invalid_client")
              (snd (_get_token (ex_fresh ex_net_denied))) eq_refl)
    as (H1 & H2 & _).
  split; [ exact H1 | exact H2 ].
Defined.

Lemma fails_cached : forall op s es s',
    fails (attempt_of op) s es s' ->
    truthy (_token (self s)) = true ->
    self s' = self s /\
    sent s'
    = sent s
      ++ repeat (request_of (cfg (self s)) (_token (self s)) op)
                (List.length es).
Proof.
  induction 1 as [s | s e s1 es s2 Hfn _ _ IH]; intros Ht.
  - cbn. now rewrite app_nil_r.
  - destruct (attempt_of_sent op s _ s (_get_token_cached s Ht))
      as [Hsent Hself].
    rewrite Hfn in Hsent, Hself. cbn [snd] in Hsent, Hself.
    destruct (IH ltac:(now rewrite Hself)) as [Hself' Hsent'].
    split; [ congruence | ].
    rewrite Hsent', Hself, Hsent. cbn [List.length repeat].
    now rewrite <- app_assoc.
Qed.

(** X9.  A retry sends the whole request again: with a truthy token cached, a
    call whose three attempts fail has issued the same Graph request three
    times, payload and all. *)
Theorem failed_attempts_resend_the_request :
  forall op s e1 e2 e3 s3,
    truthy (_token (self s)) = true ->
    fails (attempt_of op) s [e1; e2; e3] s3 ->
    sent (snd (call op s))
    = sent s
      ++ [request_of (cfg (self s)) (_token (self s)) op;
          request_of (cfg (self s)) (_token (self s)) op;
          request_of (cfg (self s)) (_token (self s)) op].
Proof.
  intros op s e1 e2 e3 s3 Ht Hf. rewrite call_decorated.
  rewrite (decorated_exhausted _ _ s e1 e2 e3 s3
             (sleep_blind_attempt_of op) Hf).
  cbn [snd sent with_slept].
  exact (proj2 (fails_cached op s _ s3 Hf Ht)).
Qed.

Lemma failed_attempts_resend_the_request_witness :
  map json (sent (snd (call ex_mail (ex_cached ex_net_garbled))))
  = [mail_payload [PyStr "a@x.com"; PyStr "b@x.com"] (PyStr "Subj")
       (PyStr "<p>Hi</p>") PyNone;
     mail_payload [PyStr "a@x.com"; PyStr "b@x.com"] (PyStr "Subj")
       (PyStr "<p>Hi</p>") PyNone;
     mail_payload [PyStr "a@x.com"; PyStr "b@x.com"] (PyStr "Subj")
       (PyStr "<p>Hi</p>") PyNone].
Proof.
  rewrite (failed_attempts_resend_the_request ex_mail
             (ex_cached ex_net_garbled)
             JSONDecodeError JSONDecodeError JSONDecodeError
             (ex_after ex_mail 3 (ex_cached ex_net_garbled)) eq_refl
             ltac:(repeat (econstructor; try reflexivity))).
  reflexivity.
Defined.

(** ** Replies and what becomes of them *)

(** X10.  [_request], once the token is there, goes by the status first and the
    content second: a 4xx or 5xx status raises [HTTPError] with the status
    and the content, whatever the body; any other status is returned, with
    [None] for an empty content (nothing is decoded) and else with the
    decoded body, a content that does not decode raising
    [JSONDecodeError]. *)
Theorem _request_goes_by_status_then_content :
  forall meth u ps j s tok s1 r,
    _get_token s = (Return tok, s1) ->
    network s1
      (sent s1 ++ [mkRequest meth u (Some (bearer_headers tok)) ps None j 20])
    = Answered r ->
    fst (_request meth u ps j s)
    = if is_error_status r
      then Raise (HTTPError (status_code r) (content r))
      else if content r =? ""
           then Return (status_code r, PyNone)
           else match decoded r with
                | Some b => Return (status_code r, b)
                | None => Raise JSONDecodeError
                end.
Proof.
  intros meth u ps j s tok s1 r Htok Hr.
  unfold _request, _headers, bind. rewrite Htok. unfold ret at 1.
  unfold requests_request, api_request. cbn [sent with_sent].
  rewrite Hr. unfold raise_for_status.
  destruct (is_error_status r); [ reflexivity | ]. unfold ret at 1.
  destruct (content r =? ""); [ reflexivity | ].
  unfold Response_json. now destruct (decoded r).
Qed.

Lemma _request_goes_by_status_then_content_witness :
  fst (_request "POST" (sendMail_url ex_cfg) None PyNone
         (ex_fresh ex_net_null_token))
  = Return (304%Z, PyNone).
Proof.
  apply (_request_goes_by_status_then_content "POST" (sendMail_url ex_cfg)
           None PyNone (ex_fresh ex_net_null_token) PyNone
           (snd (_get_token (ex_fresh ex_net_null_token)))
           (mkResponse 304 "" None) eq_refl eq_refl).
Defined.

(** X11.  The first attempt of a client without a usable token issues two
    requests, the token request and then the Graph request, and the Graph
    request carries in its [Authorization] header whatever value the reply
    held under [access_token], which is also what the cache holds
    afterwards, whether or not the Graph request succeeds. *)
Theorem first_attempt_fetches_then_calls_graph :
  forall op s r kv t,
    truthy (_token (self s)) = false ->
    network s (sent s ++ [token_request (cfg (self s))]) = Answered r ->
    is_error_status r = false ->
    decoded r = Some (PyDict kv) ->
    dict_get "access_token" kv = Some t ->
    sent (snd (attempt_of op s))
    = sent s ++ [token_request (cfg (self s));
                 request_of (cfg (self s)) t op] /\
    _token (self (snd (attempt_of op s))) = t.
Proof.
  intros op s r kv t Ht Hr He Hd Hk.
  pose proof (_get_token_uncached s Ht) as Htok. cbv zeta in Htok.
  rewrite Hr, He, Hd in Htok. unfold subscript in Htok. rewrite Hk in Htok.
  cbn [fst ret] in Htok.
  destruct (attempt_of_sent op s t _ Htok) as [Hsent Hself].
  rewrite Hsent, Hself. cbn [sent with_self with_sent self _token].
  now rewrite <- app_assoc.
Qed.

Lemma first_attempt_fetches_then_calls_graph_witness :
  map headers (sent (snd (attempt_of ex_op (ex_fresh ex_net_null_token))))
  = [None; Some (bearer_headers PyNone)].
Proof.
  destruct (first_attempt_fetches_then_calls_graph ex_op
              (ex_fresh ex_net_null_token)
              (mkResponse 200 "{...}"
                 (Some (PyDict [("access_token", PyNone)])))
              [("access_token", PyNone)] PyNone
              eq_refl eq_refl eq_refl eq_refl eq_refl) as [H _].
  rewrite H. reflexivity.
Defined.

(** X12.  A token reply that is no error status must decode, and to a JSON
    object: content that does not decode raises [JSONDecodeError], and a
    decoded value that is not a dict raises [TypeError]; either way the
    client object stays as it was. *)
Theorem token_reply_must_be_a_json_object :
  forall s r,
    truthy (_token (self s)) = false ->
    network s (sent s ++ [token_request (cfg (self s))]) = Answered r ->
    is_error_status r = false ->
    (forall kv, decoded r <> Some (PyDict kv)) ->
    self (snd (_get_token s)) = self s /\
    match decoded r with
    | None => fst (_get_token s) = Raise JSONDecodeError
    | Some _ => exists msg, fst (_get_token s) = Raise (TypeError msg)
    end.
Proof.
  intros s r Ht Hr He Hd.
  rewrite _get_token_uncached by exact Ht. cbv zeta. rewrite Hr, He.
  destruct (decoded r) as [j | ]; [ | now split ].
  destruct j; try (split; [ reflexivity | eexists; reflexivity ]).
  now elim (Hd kv).
Qed.

Lemma token_reply_must_be_a_json_object_witness :
  _token (self (snd (_get_token (ex_fresh ex_net_array)))) = PyNone /\
  exists msg,
    fst (_get_token (ex_fresh ex_net_array)) = Raise (TypeError msg).
Proof.
  destruct (token_reply_must_be_a_json_object (ex_fresh ex_net_array)
              (mkResponse 200 "[1]" (Some (PyList [PyInt 1])))
              eq_refl eq_refl eq_refl ltac:(discriminate)) as [Hself Hexn].
  split; [ now rewrite Hself | exact Hexn ].
Defined.

(** ** Failures that repeat *)

Lemma sleeps_of_three : map (backoff 1) [0; 1; 2]%Z = [1; 2; 4].
Proof. reflexivity. Qed.

(** X13.  Refused credentials are retried like any other failure: when the
    identity endpoint answers every request with the same 4xx or 5xx
    reply, a call by a client without a usable token asks the endpoint
    three times, never contacts Graph, pauses 1s, 2s and 4s, and raises
    the [HTTPError] of that reply, the client object unchanged. *)
Theorem refused_credentials_are_retried :
  forall op s r,
    truthy (_token (self s)) = false ->
    (forall h, network s h = Answered r) ->
    is_error_status r = true ->
    fst (call op s) = Raise (HTTPError (status_code r) (content r)) /\
    sent (snd (call op s))
    = sent s ++ [token_request (cfg (self s));
                 token_request (cfg (self s));
                 token_request (cfg (self s))] /\
    slept (snd (call op s)) = slept s ++ [1; 2; 4] /\
    self (snd (call op s)) = self s.
Proof.
  intros op s r Ht Hnet He.
  assert (Hstep : forall s',
             self s' = self s -> network s' = network s ->
             attempt_of op s'
             = (Raise (HTTPError (status_code r) (content r)),
                with_sent (sent s' ++ [token_request (cfg (self s))]) s')).
  { intros s' Hself Hn. apply attempt_of_token_raises.
    rewrite _get_token_uncached by now rewrite Hself.
    cbv zeta. now rewrite Hself, Hn, Hnet, He. }
  pose (t := token_request (cfg (self s))).
  pose (s1 := with_sent (sent s ++ [t]) s).
  pose (s2 := with_sent (sent s1 ++ [t]) s1).
  pose (s3 := with_sent (sent s2 ++ [t]) s2).
  assert (Hf : fails (attempt_of op) s
                 [HTTPError (status_code r) (content r);
                  HTTPError (status_code r) (content r);
                  HTTPError (status_code r) (content r)] s3).
  { apply fails_cons with (s1 := s1); [ now apply Hstep | reflexivity | ].
    apply fails_cons with (s1 := s2); [ now apply Hstep | reflexivity | ].
    apply fails_cons with (s1 := s3); [ now apply Hstep | reflexivity | ].
    apply fails_nil. }
  rewrite call_decorated.
  rewrite (decorated_exhausted _ _ s _ _ _ s3
             (sleep_blind_attempt_of op) Hf).
  rewrite sleeps_of_three. subst s3 s2 s1 t.
  cbn [fst snd sent slept self with_slept with_sent].
  repeat split. now rewrite <- !app_assoc.
Qed.

Lemma refused_credentials_are_retried_witness :
  fst (call ex_mail (ex_fresh ex_net_denied))
  = Raise (HTTPError 401 "invalid_client") /\
  List.length (sent (snd (call ex_mail (ex_fresh ex_net_denied)))) = 3%nat.
Proof.
  destruct (refused_credentials_are_retried ex_mail (ex_fresh ex_net_denied)
              (mkResponse 401 "invalid_client" None) eq_refl
              (fun h => eq_refl) eq_refl) as (Hexn & Hsent & _).
  split; [ exact Hexn | now rewrite Hsent ].
Defined.

(** X14.  A reply that Graph means as success still fails the call when it has
    content that does not decode as JSON, also for [patch_event] and
    [send_mail], which would not look at the body: with a truthy token
    cached and every reply of that kind, the call issues its request three
    times and raises [JSONDecodeError]. *)
Theorem undecodable_success_fails_the_call :
  forall op s r,
    truthy (_token (self s)) = true ->
    (forall h, network s h = Answered r) ->
    is_error_status r = false ->
    content r <> "" ->
    decoded r = None ->
    fst (call op s) = Raise JSONDecodeError /\
    sent (snd (call op s))
    = sent s
      ++ [request_of (cfg (self s)) (_token (self s)) op;
          request_of (cfg (self s)) (_token (self s)) op;
          request_of (cfg (self s)) (_token (self s)) op] /\
    slept (snd (call op s)) = slept s ++ [1; 2; 4].
Proof.
  intros op s r Ht Hnet He Hc Hd. apply String.eqb_neq in Hc.
  pose (q := request_of (cfg (self s)) (_token (self s)) op).
  assert (Hstep : forall s',
             self s' = self s -> network s' = network s ->
             attempt_of op s'
             = (Raise JSONDecodeError, with_sent (sent s' ++ [q]) s')).
  { intros s' Hself Hn.
    rewrite (attempt_of_unfold op s' (_token (self s')) s')
      by (apply _get_token_cached; now rewrite Hself).
    cbv zeta. now rewrite Hself, Hn, Hnet, He, Hc, Hd. }
  pose (s1 := with_sent (sent s ++ [q]) s).
  pose (s2 := with_sent (sent s1 ++ [q]) s1).
  pose (s3 := with_sent (sent s2 ++ [q]) s2).
  assert (Hf : fails (attempt_of op) s
                 [JSONDecodeError; JSONDecodeError; JSONDecodeError] s3).
  { apply fails_cons with (s1 := s1); [ now apply Hstep | reflexivity | ].
    apply fails_cons with (s1 := s2); [ now apply Hstep | reflexivity | ].
    apply fails_cons with (s1 := s3); [ now apply Hstep | reflexivity | ].
    apply fails_nil. }
  rewrite call_decorated.
  rewrite (decorated_exhausted _ _ s _ _ _ s3
             (sleep_blind_attempt_of op) Hf).
  rewrite sleeps_of_three. subst s3 s2 s1 q.
  cbn [fst snd sent slept self with_slept with_sent].
  repeat split. now rewrite <- !app_assoc.
Qed.

Lemma undecodable_success_fails_the_call_witness :
  fst (call ex_patch (ex_cached ex_net_garbled)) = Raise JSONDecodeError /\
  map method (sent (snd (call ex_patch (ex_cached ex_net_garbled))))
  = ["PATCH"; "PATCH"; "PATCH"].
Proof.
  destruct (undecodable_success_fails_the_call ex_patch
              (ex_cached ex_net_garbled)
              (mkResponse 202 "<html>" None) eq_refl
              (fun h => eq_refl) eq_refl ltac:(discriminate) eq_refl)
    as (Hexn & Hsent & _).
  split; [ exact Hexn | now rewrite Hsent ].
Defined.

(** ** Values returned, and the token within one call *)

Lemma attempt_of_returns_result : forall op s v s',
    attempt_of op s = (Return v, s') -> exists b, v = result_of op b.
Proof.
  intros op s v s' H.
  destruct (_get_token s) as [[tok | e] s1] eqn:Htok.
  - rewrite (attempt_of_unfold op s tok s1 Htok) in H. cbv zeta in H.
    destruct (network s1 _) as [e | r]; [ discriminate | ].
    destruct (is_error_status r); [ discriminate | ].
    destruct (if content r =? "" then _ else _) as [b | ];
      [ | discriminate ].
    injection H as <- _. eauto.
  - rewrite (attempt_of_token_raises op s e s1 Htok) in H. discriminate.
Qed.

(** X15.  What the caller can get back: [create_event] returns a truthy decoded
    body or else the empty dict, never [None] or another falsy value;
    [patch_event] and [send_mail] return [None] and nothing else. *)
Theorem call_return_values :
  forall op s v s',
    call op s = (Return v, s') ->
    match op with
    | CreateEvent _ _ => v = PyDict [] \/ truthy v = true
    | PatchEvent _ _ _ => v = PyNone
    | SendMail _ _ _ _ => v = PyNone
    end.
Proof.
  intros op s v s' H. rewrite call_decorated in H.
  unfold decorated, with_retry in H.
  refine (retry_loop_returns 1 (attempt_of op)
            (fun v => match op with
                      | CreateEvent _ _ => v = PyDict [] \/ truthy v = true
                      | _ => v = PyNone
                      end) _ _ _ _ _ _ H).
  clear. intros s v s' H.
  apply attempt_of_returns_result in H. destruct H as [b ->].
  destruct op; cbn [result_of]; try reflexivity.
  unfold py_or. destruct (truthy b) eqn:Hb; auto.
Qed.

Lemma call_return_values_witness :
  ex_created = PyDict [] \/ truthy ex_created = true.
Proof.
  apply (call_return_values ex_op (ex_fresh ex_net_ok) ex_created
           (snd (call ex_op (ex_fresh ex_net_ok)))).
  reflexivity.
Defined.

Lemma retry_loop_cons : forall A base (fn : M A) k ks last_exc s,
    retry_loop base fn (k :: ks) last_exc s
    = match fn s with
      | (Return v, s') => (Return v, s')
      | (Raise e, s') =>
          if is_Exception e
          then retry_loop base fn ks (Some e)
                 (with_slept (slept s' ++ [backoff base k]) s')
          else (Raise e, s')
      end.
Proof.
  intros A base fn k ks last_exc s. cbn [retry_loop].
  destruct (fn s) as [[v | e] s']; reflexivity.
Qed.

Lemma attempt_of_fetch : forall op s r kv t,
    truthy (_token (self s)) = false ->
    network s (sent s ++ [token_request (cfg (self s))]) = Answered r ->
    is_error_status r = false ->
    decoded r = Some (PyDict kv) ->
    dict_get "access_token" kv = Some t ->
    sent (snd (attempt_of op s))
    = sent s ++ [token_request (cfg (self s));
                 request_of (cfg (self s)) t op] /\
    self (snd (attempt_of op s)) = mkGraphClient (cfg (self s)) t.
Proof.
  intros op s r kv t Ht Hr He Hd Hk.
  pose proof (_get_token_uncached s Ht) as Htok. cbv zeta in Htok.
  rewrite Hr, He, Hd in Htok. unfold subscript in Htok. rewrite Hk in Htok.
  cbn [fst ret] in Htok.
  destruct (attempt_of_sent op s t _ Htok) as [Hsent Hself].
  rewrite Hsent, Hself. cbn [sent with_self with_sent self].
  now rewrite <- app_assoc.
Qed.

(** X16.  Within one call the token is fetched once: when the first attempt
    obtains a truthy token, the identity endpoint has been asked exactly
    once by the end of the call and the cache holds that token, however
    the Graph requests of the three attempts fare. *)
Theorem retries_reuse_the_fetched_token :
  forall op s r kv t,
    truthy (_token (self s)) = false ->
    network s (sent s ++ [token_request (cfg (self s))]) = Answered r ->
    is_error_status r = false ->
    decoded r = Some (PyDict kv) ->
    dict_get "access_token" kv = Some t ->
    truthy t = true ->
    token_requests (cfg (self s)) (sent (snd (call op s)))
    = (token_requests (cfg (self s)) (sent s) + 1)%nat /\
    _token (self (snd (call op s))) = t.
Proof.
  intros op s r kv t Ht Hr He Hd Hk Htt.
  destruct (attempt_of_fetch op s r kv t Ht Hr He Hd Hk) as [Hsent Hself].
  assert (Hcount : token_requests (cfg (self s))
                     (sent (snd (attempt_of op s)))
                   = (token_requests (cfg (self s)) (sent s) + 1)%nat).
  { rewrite Hsent.
    change [token_request (cfg (self s)); request_of (cfg (self s)) t op]
      with ([token_request (cfg (self s))]
            ++ [request_of (cfg (self s)) t op]).
    rewrite app_assoc, !token_requests_snoc.
    rewrite is_token_request_token_request, is_token_request_request_of.
    lia. }
  rewrite call_decorated. unfold decorated, with_retry. rewrite range_3.
  rewrite retry_loop_cons.
  destruct (attempt_of op s) as [[v | e] s1]; cbn [snd] in *.
  - now rewrite Hself.
  - destruct (is_Exception e); cbn [snd]; [ | now rewrite Hself ].
    rewrite <- Hcount.
    change t with (_token (mkGraphClient (cfg (self s)) t)).
    rewrite <- Hself.
    apply (retry_loop_preserves PyVal 1 (attempt_of op)
             (fun s' => token_requests (cfg (self s)) (sent s')
                        = token_requests (cfg (self s)) (sent s1) /\
                        _token (self s') = _token (self s1))).
    + intros s' [Hc Htok].
      destruct (attempt_of_cached op s' (cfg (self s))) as [H1 H2].
      { rewrite Htok, Hself. exact Htt. }
      split; congruence.
    + intros l s' H. exact H.
    + now split.
Qed.

Lemma retries_reuse_the_fetched_token_witness :
  token_requests ex_cfg (sent (snd (call ex_op (ex_fresh ex_net_never))))
  = 1%nat.
Proof.
  destruct (retries_reuse_the_fetched_token ex_op (ex_fresh ex_net_never)
              (mkResponse 200 "{...}"
                 (Some (PyDict [("access_token", PyStr "tok")])))
              [("access_token", PyStr "tok")] (PyStr "tok")
              eq_refl eq_refl eq_refl eq_refl eq_refl eq_refl) as [H _].
  exact H.
Defined.
